(** * Posture calibration UI: CalibrationModal.tsx and App.tsx

    A shallow embedding of the two React components of the repository:

    - [Modal]: the [CalibrationModal] component
      (react_app/src/components/CalibrationModal.tsx) as a transition system.
      Its [useState] cells, its [streamRef], the pending [setTimeout] of the
      countdown effect and the [async] functions suspended at an [await] are
      fields of one record; props changes, clicks, timer expiry and promise
      settlement are events.
    - [App]: the handlers of the [App] component (App.tsx) in a small state
      monad that records, in order, the calls made on the services.
    - [System]: [App] together with the [CalibrationModal] it renders, the
      modal's [isOpen] prop following [showCalibration] and its callbacks
      running the handlers of [App].

    [postureDetectionService] is imported by both components but its source
    is not part of the repository snapshot; [Service] models the methods the
    components call from the design document. *)

From Stdlib Require Import ZArith QArith.QArith_base Lia.
From stdpp Require Import base gmap sets list strings.

Open Scope string_scope.
Open Scope Z_scope.

(** ** PostureDetectionService (interface used by the components) *)

Module Service.

(** Modelled from the spec: the lifecycle flag CalibrationState of the
    missing PostureDetectionService (design document, section 3). *)
Inductive CalibrationState := NOT_CALIBRATED | CALIBRATED.

(** Modelled from the spec: the CalibrationBaseline record of the missing
    PostureDetectionService (design document, section 3). *)
Record CalibrationBaseline := {
  shoulderTiltDeg : Q;
  neckAngleDeg : Q;
  torsoLeanDeg : Q;
  capturedAt : Z
}.

(** Modelled from the spec: the state PostureDetectionService owns (design
    document, sections 3 and 4.4): model readiness, the CalibrationState
    flag and the current CalibrationBaseline. The class itself
    (services/PostureDetectionService) is missing from the sources. *)
Record t := {
  modelReady : bool;
  calibrationState : CalibrationState;
  baseline : option CalibrationBaseline
}.

(** What a JavaScript [catch] clause can receive: an [Error] object with its
    [message], or any other thrown value. *)
Inductive Thrown := ErrorObj (message : string) | NonError.

(** What one call of [calibrate(frame)] does, decided by the pose model on
    the frame: metrics good enough to be committed, not good enough, or an
    exception. *)
Inductive CalibrateOutcome :=
| Committed (m : CalibrationBaseline)
| Insufficient
| Throws (e : Thrown).

(** Modelled from the spec: [isModelReady()] of the missing
    PostureDetectionService, "true only after a successful load completes". *)
Definition isModelReady (s : t) : bool := modelReady s.

(** Modelled from the spec: [loadModel()] of the missing
    PostureDetectionService; [ok] says whether the load succeeds. The
    calibration data is "loaded at construction" and not touched here. *)
Definition loadModel (ok : bool) (s : t) : t :=
  if ok
  then {| modelReady := true;
          calibrationState := calibrationState s;
          baseline := baseline s |}
  else s.

(** Modelled from the spec: [isCalibrationNeeded()] of the missing
    PostureDetectionService, "true iff CalibrationState is NOT_CALIBRATED". *)
Definition isCalibrationNeeded (s : t) : bool :=
  match calibrationState s with
  | NOT_CALIBRATED => true
  | CALIBRATED => false
  end.

(** How one call of [clearCalibrationData()] ends, decided by the storage
    behind the service: the baseline is deleted, or the call throws. *)
Inductive ClearOutcome :=
| Cleared
| ClearThrows (e : Thrown).

(** Modelled from the spec: [clearCalibrationData()] of the missing
    PostureDetectionService, "delegates to CalibrationStore.clear()", which
    "deletes baseline; sets CalibrationState to NOT_CALIBRATED"; a
    "persistence layer failure on save/load/clear" is a StorageError
    "surfaced to caller". The result is the value thrown, if any; as "the
    store write and the in-memory state transition happen atomically from
    the caller's perspective", a call that throws leaves the state as it
    was. *)
Definition clearCalibrationData (o : ClearOutcome) (s : t)
  : option Thrown * t :=
  match o with
  | Cleared =>
      (None, {| modelReady := modelReady s;
                calibrationState := NOT_CALIBRATED;
                baseline := None |})
  | ClearThrows e => (Some e, s)
  end.

(** Modelled from the spec: [calibrate(frame)] of the missing
    PostureDetectionService: "otherwise returns failure (false) without
    mutating the baseline. On success, persists the metrics as the new
    CalibrationBaseline ... and returns success (true)". The result is the
    value the promise resolves to, or the value it rejects with. *)
Definition calibrate (o : CalibrateOutcome) (s : t) : (bool + Thrown) * t :=
  match o with
  | Committed m =>
      (inl true, {| modelReady := modelReady s;
                    calibrationState := CALIBRATED;
                    baseline := Some m |})
  | Insufficient => (inl false, s)
  | Throws e => (inr e, s)
  end.

End Service.

(** ** CalibrationModal *)

Module Modal.

Import Service.

(** A [MediaStream] with the identifiers of its tracks; a track is live
    until [track.stop()] puts its identifier into [stopped]. *)
Record MediaStream := { tracks : list nat }.

Inductive ImageData := Image (width height : Z).

(** What the browser answers when [performCalibration] works on the canvas
    (lines 96-113): [getContext('2d')] is null, [drawImage]/[getImageData]
    throw, or [getImageData] returns a frame. *)
Inductive Grab :=
| NoContext
| GrabThrows (e : Thrown)
| Grabbed (img : ImageData).

(** An [initCamera] invocation suspended at one of its two [await]s. *)
Inductive Pending := AwaitLoadModel | AwaitGetUserMedia.

(** Calls that leave the component, in the order they are made. *)
Inductive Signal :=
| OnClose
| OnCalibrationComplete
| LoadModelCalled
| GetUserMediaCalled
| FrameCaptured (img : ImageData)
| CalibrateCalled (img : ImageData)
| ConsoleError (msg : string).

Record World := {
  mounted : bool;
  isOpen : bool;                      (* prop *)
  step : Z;                           (* useState(1) *)
  countdown : Z;                      (* useState(5) *)
  calibrating : bool;                 (* useState(false) *)
  error : option string;              (* useState(null) *)
  streamRef : option MediaStream;     (* streamRef.current *)
  timer : option Z;                   (* pending setTimeout: the argument
                                         it will pass to setCountdown *)
  pending : list Pending;             (* suspended initCamera calls *)
  awaiting : nat;                     (* performCalibration calls suspended
                                         at [await calibrate(imageData)] *)
  dom : Grab;                         (* what a canvas grab would give *)
  svc : Service.t;
  stopped : gset nat;                 (* tracks on which stop() was called *)
  log : list Signal
}.

(** *** Field updates *)

Definition with_mounted (v : bool) (w : World) : World :=
  {| mounted := v; isOpen := isOpen w; step := step w;
     countdown := countdown w; calibrating := calibrating w;
     error := error w; streamRef := streamRef w; timer := timer w;
     pending := pending w; awaiting := awaiting w; dom := dom w;
     svc := svc w; stopped := stopped w; log := log w |}.

Definition with_isOpen (v : bool) (w : World) : World :=
  {| mounted := mounted w; isOpen := v; step := step w;
     countdown := countdown w; calibrating := calibrating w;
     error := error w; streamRef := streamRef w; timer := timer w;
     pending := pending w; awaiting := awaiting w; dom := dom w;
     svc := svc w; stopped := stopped w; log := log w |}.

Definition with_step (v : Z) (w : World) : World :=
  {| mounted := mounted w; isOpen := isOpen w; step := v;
     countdown := countdown w; calibrating := calibrating w;
     error := error w; streamRef := streamRef w; timer := timer w;
     pending := pending w; awaiting := awaiting w; dom := dom w;
     svc := svc w; stopped := stopped w; log := log w |}.

Definition with_countdown (v : Z) (w : World) : World :=
  {| mounted := mounted w; isOpen := isOpen w; step := step w;
     countdown := v; calibrating := calibrating w;
     error := error w; streamRef := streamRef w; timer := timer w;
     pending := pending w; awaiting := awaiting w; dom := dom w;
     svc := svc w; stopped := stopped w; log := log w |}.

Definition with_calibrating (v : bool) (w : World) : World :=
  {| mounted := mounted w; isOpen := isOpen w; step := step w;
     countdown := countdown w; calibrating := v;
     error := error w; streamRef := streamRef w; timer := timer w;
     pending := pending w; awaiting := awaiting w; dom := dom w;
     svc := svc w; stopped := stopped w; log := log w |}.

Definition with_error (v : option string) (w : World) : World :=
  {| mounted := mounted w; isOpen := isOpen w; step := step w;
     countdown := countdown w; calibrating := calibrating w;
     error := v; streamRef := streamRef w; timer := timer w;
     pending := pending w; awaiting := awaiting w; dom := dom w;
     svc := svc w; stopped := stopped w; log := log w |}.

Definition with_streamRef (v : option MediaStream) (w : World) : World :=
  {| mounted := mounted w; isOpen := isOpen w; step := step w;
     countdown := countdown w; calibrating := calibrating w;
     error := error w; streamRef := v; timer := timer w;
     pending := pending w; awaiting := awaiting w; dom := dom w;
     svc := svc w; stopped := stopped w; log := log w |}.

Definition with_timer (v : option Z) (w : World) : World :=
  {| mounted := mounted w; isOpen := isOpen w; step := step w;
     countdown := countdown w; calibrating := calibrating w;
     error := error w; streamRef := streamRef w; timer := v;
     pending := pending w; awaiting := awaiting w; dom := dom w;
     svc := svc w; stopped := stopped w; log := log w |}.

Definition with_pending (v : list Pending) (w : World) : World :=
  {| mounted := mounted w; isOpen := isOpen w; step := step w;
     countdown := countdown w; calibrating := calibrating w;
     error := error w; streamRef := streamRef w; timer := timer w;
     pending := v; awaiting := awaiting w; dom := dom w;
     svc := svc w; stopped := stopped w; log := log w |}.

Definition with_awaiting (v : nat) (w : World) : World :=
  {| mounted := mounted w; isOpen := isOpen w; step := step w;
     countdown := countdown w; calibrating := calibrating w;
     error := error w; streamRef := streamRef w; timer := timer w;
     pending := pending w; awaiting := v; dom := dom w;
     svc := svc w; stopped := stopped w; log := log w |}.

Definition with_dom (v : Grab) (w : World) : World :=
  {| mounted := mounted w; isOpen := isOpen w; step := step w;
     countdown := countdown w; calibrating := calibrating w;
     error := error w; streamRef := streamRef w; timer := timer w;
     pending := pending w; awaiting := awaiting w; dom := v;
     svc := svc w; stopped := stopped w; log := log w |}.

Definition with_svc (v : Service.t) (w : World) : World :=
  {| mounted := mounted w; isOpen := isOpen w; step := step w;
     countdown := countdown w; calibrating := calibrating w;
     error := error w; streamRef := streamRef w; timer := timer w;
     pending := pending w; awaiting := awaiting w; dom := dom w;
     svc := v; stopped := stopped w; log := log w |}.

Definition with_stopped (v : gset nat) (w : World) : World :=
  {| mounted := mounted w; isOpen := isOpen w; step := step w;
     countdown := countdown w; calibrating := calibrating w;
     error := error w; streamRef := streamRef w; timer := timer w;
     pending := pending w; awaiting := awaiting w; dom := dom w;
     svc := svc w; stopped := v; log := log w |}.

Definition emit (s : Signal) (w : World) : World :=
  {| mounted := mounted w; isOpen := isOpen w; step := step w;
     countdown := countdown w; calibrating := calibrating w;
     error := error w; streamRef := streamRef w; timer := timer w;
     pending := pending w; awaiting := awaiting w; dom := dom w;
     svc := svc w; stopped := stopped w; log := log w ++ [s] |}.

(** *** State setters

    A [useState] setter called after the component has unmounted changes
    nothing. *)

Definition setStep (v : Z) (w : World) : World :=
  with_step (if mounted w then v else step w) w.

Definition setCountdown (v : Z) (w : World) : World :=
  with_countdown (if mounted w then v else countdown w) w.

Definition setCalibrating (v : bool) (w : World) : World :=
  with_calibrating (if mounted w then v else calibrating w) w.

Definition setError (v : option string) (w : World) : World :=
  with_error (if mounted w then v else error w) w.

(** *** What is rendered (lines 137-234)

    The component returns [null] when [isOpen] is false. The view of step 1
    holds a [video] and a [canvas] element (lines 162-172), the view of
    step 2 holds a [video] element only (lines 197-203), the view of step 3
    holds neither. React sets [ref.current] to the element while it is in
    the document and back to [null] when it is removed. *)

Definition videoRef_current (w : World) : bool :=
  mounted w && isOpen w && ((step w =? 1) || (step w =? 2)).

Definition canvasRef_current (w : World) : bool :=
  mounted w && isOpen w && (step w =? 1).

(** The buttons: Cancel and Start Calibration in the view of step 1
    (lines 175-186), Continue in the view of step 3 (lines 223-228); the
    view of step 2 has none. *)

Definition instructions_shown (w : World) : bool :=
  mounted w && isOpen w && (step w =? 1).

Definition success_shown (w : World) : bool :=
  mounted w && isOpen w && (step w =? 3).

(** *** The [isOpen] effect (lines 24-41) and [initCamera] (lines 58-79) *)

(** [if (streamRef.current) { getTracks().forEach(stop); current = null }] *)
Definition releaseStream (w : World) : World :=
  match streamRef w with
  | Some s =>
      with_streamRef None (with_stopped (stopped w ∪ list_to_set (tracks s)) w)
  | None => w
  end.

Definition cameraMessage : string :=
  "Could not access camera. Please check permissions and try again.".

(** The [catch] clause of [initCamera]. *)
Definition initCamera_catch (w : World) : World :=
  setError (Some cameraMessage)
    (emit (ConsoleError "Error initializing camera:") w).

(** [initCamera] up to its first [await]. *)
Definition initCamera (w : World) : World :=
  if isModelReady (svc w)
  then with_pending (pending w ++ [AwaitGetUserMedia]) (emit GetUserMediaCalled w)
  else with_pending (pending w ++ [AwaitLoadModel]) (emit LoadModelCalled w).

(** The [i]-th suspended [initCamera] gets the answer of [loadModel()]. *)
Definition initCamera_loaded (i : nat) (ok : bool) (w : World) : World :=
  match pending w !! i with
  | Some AwaitLoadModel =>
      if ok
      then with_pending (<[i := AwaitGetUserMedia]> (pending w))
             (emit GetUserMediaCalled (with_svc (loadModel true (svc w)) w))
      else initCamera_catch (with_pending (delete i (pending w)) w)
  | _ => w
  end.

(** The [i]-th suspended [initCamera] gets the answer of [getUserMedia]:
    a stream, or a rejection. Line 70 overwrites [streamRef.current]
    whatever it held and whatever [isOpen] is by now. (Lines 72-74 hand
    the stream to the video element for display; nothing reads it back.) *)
Definition initCamera_stream (i : nat) (r : option MediaStream) (w : World)
  : World :=
  match pending w !! i with
  | Some AwaitGetUserMedia =>
      let w := with_pending (delete i (pending w)) w in
      match r with
      | Some s => with_streamRef (Some s) w
      | None => initCamera_catch w
      end
  | _ => w
  end.

(** The parent renders the component with a new value of the [isOpen] prop.
    When the value changed, the cleanup of the previous run of the effect
    runs, then the effect body. *)
Definition setIsOpen (b : bool) (w : World) : World :=
  if mounted w && negb (Bool.eqb b (isOpen w))
  then
    let w := with_isOpen b (releaseStream w) in
    if b then initCamera w else releaseStream w
  else w.

(** *** [performCalibration] (lines 86-130) *)

Definition reason (e : Thrown) : string :=
  match e with
  | ErrorObj m => m
  | NonError => "Unknown error during calibration"
  end.

(** The [catch] and [finally] clauses. *)
Definition performCalibration_catch (e : Thrown) (w : World) : World :=
  setCalibrating false
    (setStep 1
       (setError (Some (reason e))
          (emit (ConsoleError "Calibration error:") w))).

(** [performCalibration] up to [await calibrate(imageData)], or to its end
    when it throws before. *)
Definition performCalibration (w : World) : World :=
  let w := setError None (setCalibrating true w) in
  if negb (videoRef_current w) || negb (canvasRef_current w)
  then performCalibration_catch
         (ErrorObj "Video or canvas reference not available") w
  else
    match dom w with
    | NoContext =>
        performCalibration_catch (ErrorObj "Could not get canvas context") w
    | GrabThrows e => performCalibration_catch e w
    | Grabbed img =>
        with_awaiting (S (awaiting w))
          (emit (CalibrateCalled img) (emit (FrameCaptured img) w))
    end.

(** [performCalibration] from the point where [calibrate] has settled. *)
Definition performCalibration_resume (o : CalibrateOutcome) (w : World)
  : World :=
  let '(r, s) := calibrate o (svc w) in
  let w := with_svc s w in
  match r with
  | inl true => setCalibrating false (setStep 3 w)
  | inl false =>
      performCalibration_catch
        (ErrorObj "Calibration failed. Please try again.") w
  | inr e => performCalibration_catch e w
  end.

(** *** The countdown effect (lines 44-56) *)

Definition deps (w : World) : Z * Z := (step w, countdown w).

Definition deps_eqb (a b : Z * Z) : bool :=
  (a.1 =? b.1) && (a.2 =? b.2).

(** The effect body. When [performCalibration] throws at once it sets
    [step] to 1, which re-runs the effect: no timer is pending then and
    with [step = 1] neither branch applies, so that re-run changes
    nothing. *)
Definition countdownEffect (w : World) : World :=
  if (step w =? 2) && (0 <? countdown w)
  then with_timer (Some (countdown w - 1)) w
  else if (step w =? 2) && (countdown w =? 0)
  then performCalibration w
  else w.

(** After a state change: when [step] or [countdown] differ from the values
    of the previous render, the cleanup clears the timer and the effect body
    runs again. *)
Definition rerender (old : Z * Z) (w : World) : World :=
  if mounted w && negb (deps_eqb old (deps w))
  then countdownEffect (with_timer None w)
  else w.

(** [startCalibration] (lines 81-84). *)
Definition startCalibration (w : World) : World :=
  setCountdown 5 (setStep 2 w).

(** [handleComplete] (lines 132-135). *)
Definition handleComplete (w : World) : World :=
  emit OnClose (emit OnCalibrationComplete w).

(** *** Events *)

Inductive Event :=
| SetIsOpen (b : bool)              (* the parent changes the prop *)
| Unmount
| ClickCancel
| ClickStart
| ClickContinue
| TimerFires                        (* the pending setTimeout expires *)
| LoadModelSettles (i : nat) (ok : bool)
| GetUserMediaSettles (i : nat) (r : option MediaStream)
| CalibrateSettles (o : CalibrateOutcome)
| Browser (g : Grab).               (* the canvas environment changes *)

Definition step_event (w : World) (e : Event) : World :=
  match e with
  | SetIsOpen b => setIsOpen b w
  | Unmount =>
      if mounted w
      then with_mounted false (with_timer None (releaseStream w))
      else w
  | ClickCancel =>
      if instructions_shown w then emit OnClose w else w
  | ClickStart =>
      if instructions_shown w
      then rerender (deps w) (startCalibration w)
      else w
  | ClickContinue =>
      if success_shown w then handleComplete w else w
  | TimerFires =>
      match timer w with
      | Some v => rerender (deps w) (setCountdown v (with_timer None w))
      | None => w
      end
  | LoadModelSettles i ok => initCamera_loaded i ok w
  | GetUserMediaSettles i r => initCamera_stream i r w
  | CalibrateSettles o =>
      match awaiting w with
      | S n =>
          rerender (deps w)
            (performCalibration_resume o (with_awaiting n w))
      | O => w
      end
  | Browser g => with_dom g w
  end.

Definition run (w : World) (es : list Event) : World :=
  fold_left step_event es w.

(** The component right after it is mounted with [isOpen = b]: the initial
    values of the [useState] cells and the first run of both effects. *)
Definition mount (b : bool) (s : Service.t) : World :=
  let w :=
    {| mounted := true; isOpen := b; step := 1; countdown := 5;
       calibrating := false; error := None; streamRef := None;
       timer := None; pending := []; awaiting := 0%nat; dom := NoContext;
       svc := s; stopped := ∅; log := [] |} in
  if b then initCamera w else w.

(** *** Observations *)

Definition is_calibrate (s : Signal) : bool :=
  match s with CalibrateCalled _ => true | _ => false end.

Definition is_frame (s : Signal) : bool :=
  match s with FrameCaptured _ => true | _ => false end.

Definition is_complete (s : Signal) : bool :=
  match s with OnCalibrationComplete => true | _ => false end.

Definition calibrate_calls (w : World) : nat :=
  length (List.filter is_calibrate (log w)).

Definition frames_captured (w : World) : nat :=
  length (List.filter is_frame (log w)).

(** The signals the event [e] adds to the log of [w]. *)
Definition emitted (w : World) (e : Event) : list Signal :=
  drop (length (log w)) (log (step_event w e)).

(** A track is live when [stop()] was never called on it. *)
Definition is_live (w : World) (t : nat) : bool :=
  bool_decide (t ∉ stopped w).

(** The red banner (lines 144-148): [{error && <div>{error}</div>}], so
    neither [null] nor the empty string shows one. *)
Definition error_banner (w : World) : option string :=
  if mounted w && isOpen w
  then match error w with
       | Some "" => None
       | Some msg => Some msg
       | None => None
       end
  else None.

(** *** Invariants *)

(** A pending timer always carries the current countdown minus one, and is
    only pending while the countdown is positive. *)
Definition countdown_inv (w : World) : Prop :=
  0 ≤ countdown w ≤ 5 ∧
  ∀ v, timer w = Some v → 0 < countdown w ∧ v = countdown w - 1.

(** No [performCalibration] is suspended at [calibrate], none ever got
    that far, and the service holds the calibration data of [s0]. *)
Definition never_captures (s0 : Service.t) (w : World) : Prop :=
  awaiting w = 0%nat ∧
  calibrate_calls w = 0%nat ∧
  frames_captured w = 0%nat ∧
  (step w = 1 ∨ step w = 2) ∧
  baseline (svc w) = baseline s0 ∧
  calibrationState (svc w) = calibrationState s0.

(** *** Further observations *)

Definition is_callback (s : Signal) : bool :=
  match s with OnClose | OnCalibrationComplete => true | _ => false end.

Definition is_getUserMedia (s : Signal) : bool :=
  match s with GetUserMediaCalled => true | _ => false end.

Definition is_loadModel (s : Signal) : bool :=
  match s with LoadModelCalled => true | _ => false end.

(** The calls made so far on the two callback props. *)
Definition callbacks (w : World) : list Signal :=
  List.filter is_callback (log w).

Definition completions (w : World) : nat :=
  length (List.filter is_complete (log w)).

(** Everything but the workflow cells ([step], [countdown], [calibrating],
    [error]), the timer and the log is the same in [w] and [w']. *)
Definition same_surroundings (w w' : World) : Prop :=
  mounted w' = mounted w ∧ isOpen w' = isOpen w ∧
  awaiting w' = awaiting w ∧ svc w' = svc w ∧
  streamRef w' = streamRef w ∧ pending w' = pending w ∧
  stopped w' = stopped w ∧ dom w' = dom w.

(** No capture is or was in progress, and none ever succeeded. *)
Definition no_capture (w : World) : Prop :=
  awaiting w = 0%nat ∧
  calibrate_calls w = 0%nat ∧
  frames_captured w = 0%nat ∧
  (step w = 1 ∨ step w = 2) ∧
  calibrating w = false ∧
  completions w = 0%nat.

(** While mounted, a timer is pending exactly in the countdown view, and
    it is the one for the value shown; after unmounting none is pending. *)
Definition ticking (w : World) : Prop :=
  if mounted w
  then (step w = 2 → 0 < countdown w ∧ timer w = Some (countdown w - 1)) ∧
       (step w ≠ 2 → timer w = None)
  else timer w = None.

(** The event makes [initCamera] call [getUserMedia]: the modal is opened
    while the model is ready, or the [loadModel()] an [initCamera] waits
    for resolves. *)
Definition requests_camera (w : World) (e : Event) : bool :=
  match e with
  | SetIsOpen true => mounted w && negb (isOpen w) && isModelReady (svc w)
  | LoadModelSettles i true =>
      match pending w !! i with Some AwaitLoadModel => true | _ => false end
  | _ => false
  end.

(** The event makes [initCamera] call [loadModel]: the modal is opened
    while the model is not ready. *)
Definition requests_model (w : World) (e : Event) : bool :=
  match e with
  | SetIsOpen true =>
      mounted w && negb (isOpen w) && negb (isModelReady (svc w))
  | _ => false
  end.

(** The console error of the [catch] clause of [performCalibration]
    (line 124): one per capture attempt that failed. *)
Definition is_attempt_error (s : Signal) : bool :=
  match s with
  | ConsoleError msg => String.eqb msg "Calibration error:"
  | _ => false
  end.

Definition failed_attempts (w : World) : nat :=
  length (List.filter is_attempt_error (log w)).

(** In the instructions view the countdown cell still holds 5 as long as
    no capture attempt has failed, and 0 from the first failed attempt
    on. *)
Definition idle_countdown (w : World) : Prop :=
  step w = 1 →
  (failed_attempts w = 0%nat → countdown w = 5) ∧
  ((0 < failed_attempts w)%nat → countdown w = 0).

(** What the modal keeps in every run from mounting. *)
Definition settled (w : World) : Prop :=
  no_capture w ∧ ticking w ∧ idle_countdown w.

(** *** Sample data for the scenarios *)

Definition svc0 : Service.t :=
  {| modelReady := true; calibrationState := NOT_CALIBRATED;
     baseline := None |}.

(** The service while the pose model is still loading. *)
Definition svcLoading : Service.t :=
  {| modelReady := false; calibrationState := NOT_CALIBRATED;
     baseline := None |}.

Definition camera : MediaStream := {| tracks := [1%nat] |}.

Definition camera2 : MediaStream := {| tracks := [2%nat] |}.

Definition frame : ImageData := Image 640 480.

Definition refsMissing : string :=
  "Video or canvas reference not available".

(** Metrics the service would accept as a baseline. *)
Definition uprightBaseline : CalibrationBaseline :=
  {| shoulderTiltDeg := 0%Q; neckAngleDeg := 0%Q; torsoLeanDeg := 0%Q;
     capturedAt := 0 |}.

(** A service that holds a baseline from an earlier session. *)
Definition svcCalibrated : Service.t :=
  {| modelReady := true; calibrationState := CALIBRATED;
     baseline := Some uprightBaseline |}.

End Modal.

(** ** App *)

Module App.

Import Service.

(** The second parameter of [handleSettingChange] has type
    [number | boolean]; at run time nothing ties it to the key. *)
Inductive JsValue := JsNumber (q : Q) | JsBoolean (b : bool).

(** [keyof PostureSettings] *)
Inductive SettingKey :=
| KShoulderAlignmentThreshold
| KSlouchThreshold
| KDetectionConfidence
| KEnableNotifications
| KNotificationInterval.

Record PostureSettings := {
  shoulderAlignmentThreshold : JsValue;
  slouchThreshold : JsValue;
  detectionConfidence : JsValue;
  enableNotifications : JsValue;
  notificationInterval : JsValue
}.

(** [{ ...prev, [key]: value }] *)
Definition assign (prev : PostureSettings) (key : SettingKey) (value : JsValue)
  : PostureSettings :=
  match key with
  | KShoulderAlignmentThreshold =>
      {| shoulderAlignmentThreshold := value;
         slouchThreshold := slouchThreshold prev;
         detectionConfidence := detectionConfidence prev;
         enableNotifications := enableNotifications prev;
         notificationInterval := notificationInterval prev |}
  | KSlouchThreshold =>
      {| shoulderAlignmentThreshold := shoulderAlignmentThreshold prev;
         slouchThreshold := value;
         detectionConfidence := detectionConfidence prev;
         enableNotifications := enableNotifications prev;
         notificationInterval := notificationInterval prev |}
  | KDetectionConfidence =>
      {| shoulderAlignmentThreshold := shoulderAlignmentThreshold prev;
         slouchThreshold := slouchThreshold prev;
         detectionConfidence := value;
         enableNotifications := enableNotifications prev;
         notificationInterval := notificationInterval prev |}
  | KEnableNotifications =>
      {| shoulderAlignmentThreshold := shoulderAlignmentThreshold prev;
         slouchThreshold := slouchThreshold prev;
         detectionConfidence := detectionConfidence prev;
         enableNotifications := value;
         notificationInterval := notificationInterval prev |}
  | KNotificationInterval =>
      {| shoulderAlignmentThreshold := shoulderAlignmentThreshold prev;
         slouchThreshold := slouchThreshold prev;
         detectionConfidence := detectionConfidence prev;
         enableNotifications := enableNotifications prev;
         notificationInterval := value |}
  end.

(** The three [useState] cells of [App] (lines 10-18). *)
Record State := {
  showSettings : bool;
  showCalibration : bool;
  settings : PostureSettings
}.

Definition initial : State :=
  {| showSettings := false;
     showCalibration := false;
     settings :=
       {| shoulderAlignmentThreshold := JsNumber (15 # 1);
          slouchThreshold := JsNumber (20 # 1);
          detectionConfidence := JsNumber (6 # 10);
          enableNotifications := JsBoolean true;
          notificationInterval := JsNumber (60000 # 1) |} |}.

(** What a handler does besides changing [State], in order. *)
Inductive Action :=
| SvcLoadModel
| SvcClearCalibrationData
| NotifSetEnabled (v : JsValue)
| NotifSetCooldown (v : JsValue)
| NotifyBadPosture (msg : string)
| SetShowCalibration (b : bool)
| ConsoleError (msg : string)
| Uncaught (e : Thrown).

Record Ctx := {
  app : State;
  service : Service.t;
  trace : list Action
}.

(** Handlers run in a state monad over [Ctx]. *)
Definition M (A : Type) : Type := Ctx → A * Ctx.

#[global] Instance M_ret : MRet M := λ A x c, (x, c).
#[global] Instance M_bind : MBind M :=
  λ A B f m c, let '(x, c') := m c in f x c'.

Definition exec {A} (m : M A) (c : Ctx) : Ctx := (m c).2.

Definition record (a : Action) : M unit :=
  λ c, ((), {| app := app c; service := service c;
               trace := trace c ++ [a] |}).

Definition modifyApp (f : State → State) : M unit :=
  λ c, ((), {| app := f (app c); service := service c; trace := trace c |}).

Definition modifyService (f : Service.t → Service.t) : M unit :=
  λ c, ((), {| app := app c; service := f (service c); trace := trace c |}).

Definition getService : M Service.t := λ c, (service c, c).

(** A method of the service that returns something and changes its
    state. *)
Definition callService {A} (f : Service.t → A * Service.t) : M A :=
  λ c, let '(r, s) := f (service c) in
       (r, {| app := app c; service := s; trace := trace c |}).

Definition setShowSettings (f : bool → bool) : M unit :=
  modifyApp (λ a, {| showSettings := f (showSettings a);
                     showCalibration := showCalibration a;
                     settings := settings a |}).

Definition setShowCalibration (b : bool) : M unit :=
  record (SetShowCalibration b) ;;
  modifyApp (λ a, {| showSettings := showSettings a;
                     showCalibration := b;
                     settings := settings a |}).

Definition setSettings (f : PostureSettings → PostureSettings) : M unit :=
  modifyApp (λ a, {| showSettings := showSettings a;
                     showCalibration := showCalibration a;
                     settings := f (settings a) |}).

(** [toggleSettings] (lines 40-42). *)
Definition toggleSettings : M unit := setShowSettings negb.

(** [handleSettingChange] (lines 44-56). *)
Definition handleSettingChange (key : SettingKey) (value : JsValue) : M unit :=
  setSettings (λ prev, assign prev key value) ;;
  match key with
  | KEnableNotifications => record (NotifSetEnabled value)
  | KNotificationInterval => record (NotifSetCooldown value)
  | _ => mret ()
  end.

(** The call [postureDetectionService.clearCalibrationData()] of line 59:
    it is recorded, the service changes state, and the value the call
    throws, if any, is handed on. *)
Definition callClearCalibrationData (o : ClearOutcome) : M (option Thrown) :=
  record SvcClearCalibrationData ;;
  callService (clearCalibrationData o).

(** [handleRecalibrate] (lines 58-61). There is no [try] around the call
    of line 59: when it throws, the handler ends there, line 60 is not
    reached and the exception leaves the click handler uncaught. *)
Definition handleRecalibrate (o : ClearOutcome) : M unit :=
  r ← callClearCalibrationData o ;
  match r with
  | None => setShowCalibration true
  | Some e => record (Uncaught e)
  end.

(** [handleCalibrationComplete] (lines 63-65). *)
Definition handleCalibrationComplete : M unit := setShowCalibration false.

(** The [onClose] prop given to [CalibrationModal] (line 162). *)
Definition onClose : M unit := setShowCalibration false.

(** The [onCalibrationNeeded] prop given to [CameraFeed] (line 158). *)
Definition onCalibrationNeeded : M unit := setShowCalibration true.

(** The startup effect (lines 21-38). [checkCalibration] runs to the end at
    once when the model is ready; otherwise it is suspended at
    [await loadModel()] and returns [true]. *)
Definition checkCalibration_tail : M unit :=
  s ← getService ;
  if isCalibrationNeeded s then setShowCalibration true else mret ().

Definition checkCalibration : M bool :=
  s ← getService ;
  if negb (isModelReady s)
  then record SvcLoadModel ;; mret true
  else checkCalibration_tail ;; mret false.

(** [checkCalibration] from the point where [loadModel()] has settled; a
    rejection is caught and logged. *)
Definition checkCalibration_resume (ok : bool) : M unit :=
  modifyService (loadModel ok) ;;
  (if ok then mret () else record (ConsoleError "Failed to load model:")) ;;
  checkCalibration_tail.

(** The whole startup check on a fresh [App], the load attempt (if one is
    made) ending with [ok] and nothing else happening meanwhile. *)
Definition startup (ok : bool) (s : Service.t) : Ctx :=
  let c0 := {| app := initial; service := s; trace := [] |} in
  let '(suspended, c1) := checkCalibration c0 in
  if suspended then exec (checkCalibration_resume ok) c1 else c1.

(** The props [App] hands to its children (lines 158-164): [CameraFeed]
    gets one callback and no data, [CalibrationModal] gets [isOpen] and two
    callbacks. *)
Record ChildProps := {
  cameraFeed_data : list JsValue;
  modal_isOpen : bool
}.

Definition render (a : State) : ChildProps :=
  {| cameraFeed_data := []; modal_isOpen := showCalibration a |}.

(** The calls made on [postureDetectionService] and
    [notificationService]. *)
Definition is_service_call (a : Action) : bool :=
  match a with
  | SetShowCalibration _ | ConsoleError _ | Uncaught _ => false
  | _ => true
  end.

Definition service_calls (tr : list Action) : list Action :=
  List.filter is_service_call tr.

(** The callbacks of [CalibrationModal] as wired in line 160-164. *)
Definition onSignal (s : Modal.Signal) : M unit :=
  match s with
  | Modal.OnClose => onClose
  | Modal.OnCalibrationComplete => handleCalibrationComplete
  | _ => mret ()
  end.

(** The [setShowCalibration] calls in a trace. *)
Definition is_show (a : Action) : bool :=
  match a with SetShowCalibration _ => true | _ => false end.

Definition shows (tr : list Action) : list Action := List.filter is_show tr.

Fixpoint deliver (ss : list Modal.Signal) : M unit :=
  match ss with
  | [] => mret ()
  | s :: ss => onSignal s ;; deliver ss
  end.

(** *** The settings panel (lines 79-156) *)

(** [settings[key]] *)
Definition get (p : PostureSettings) (key : SettingKey) : JsValue :=
  match key with
  | KShoulderAlignmentThreshold => shoulderAlignmentThreshold p
  | KSlouchThreshold => slouchThreshold p
  | KDetectionConfidence => detectionConfidence p
  | KEnableNotifications => enableNotifications p
  | KNotificationInterval => notificationInterval p
  end.

(** JavaScript's conversion of a number or boolean to a number, as the
    division of line 101 applies it. *)
Definition toNumber (v : JsValue) : Q :=
  match v with
  | JsNumber q => q
  | JsBoolean true => 1
  | JsBoolean false => 0
  end.

(** The seconds shown beside the interval slider (lines 101 and 104):
    [settings.notificationInterval / 1000]. The quotient of two doubles
    is rounded to a double; it is the exact quotient whenever that is an
    integer of at most 53 bits, as for every value the slider stores. *)
Definition intervalShown (p : PostureSettings) : Q :=
  (toNumber (notificationInterval p) / 1000)%Q.

(** A JavaScript number is an IEEE-754 double. [toDouble z] is the double
    nearest to the integer [z], ties going to the even mantissa: an
    integer of at most 53 bits is kept as it is, a longer one keeps its 53
    leading bits. (Overflow to [Infinity], beyond 2^1024, is left out.) *)
Definition toDouble (z : Z) : Z :=
  let a := Z.abs z in
  let k := Z.log2 a - 52 in
  if k <=? 0 then z
  else
    let q := a / 2 ^ k in
    let r := a mod 2 ^ k in
    let half := 2 ^ (k - 1) in
    let q' := if (half <? r) || ((r =? half) && Z.odd q) then q + 1 else q in
    Z.sgn z * (q' * 2 ^ k).

(** What the user can do in [App] itself. A slider event carries the
    integer written in the input's value ([n] for [SlideInterval] and
    [SlideSlouch]) or the fraction [parseFloat] reads from it; the click on
    Recalibrate Posture carries the way the [clearCalibrationData()] it
    leads to will end; [CameraFeed] may call its [onCalibrationNeeded] prop
    at any time. *)
Inductive Ui :=
| ClickSettingsToggle
| CheckEnable (checked : bool)
| SlideInterval (n : Z)
| SlideSlouch (n : Z)
| SlideConfidence (q : Q)
| ClickRecalibrate (o : ClearOutcome)
| ClickTestNotification
| CameraFeedNeedsCalibration.

(** A control of the settings panel exists only while [showSettings] is
    true (line 79). *)
Definition inPanel (m : M unit) : M unit :=
  λ c, if showSettings (app c) then m c else ((), c).

(** The integer a range input hands over lies on the slider's grid
    ([min], [max] and [step] of lines 98-100 and 111-112). *)
Definition on_grid (e : Ui) : Prop :=
  match e with
  | SlideInterval n => 30 ≤ n ≤ 300 ∧ (30 | n)
  | SlideSlouch n => 10 ≤ n ≤ 30
  | _ => True
  end.

(** The [onClick] and [onChange] handlers of lines 73, 88, 102, 114, 127,
    134, 158 and 167. [parseInt] gives the double nearest to the integer it
    reads, and the product of line 102 is a product of doubles. *)
Definition handle (e : Ui) : M unit :=
  match e with
  | ClickSettingsToggle => toggleSettings
  | CheckEnable checked =>
      inPanel (handleSettingChange KEnableNotifications (JsBoolean checked))
  | SlideInterval n =>
      inPanel (handleSettingChange KNotificationInterval
                 (JsNumber (inject_Z (toDouble (toDouble n * 1000)))))
  | SlideSlouch n =>
      inPanel (handleSettingChange KSlouchThreshold
                 (JsNumber (inject_Z (toDouble n))))
  | SlideConfidence q =>
      inPanel (handleSettingChange KDetectionConfidence (JsNumber q))
  | ClickRecalibrate o => inPanel (handleRecalibrate o)
  | ClickTestNotification => record (NotifyBadPosture "Test notification")
  | CameraFeedNeedsCalibration => onCalibrationNeeded
  end.

(** The argument of the last [setEnabled] and of the last [setCooldown]
    call in a trace. *)
Fixpoint lastEnabled (tr : list Action) : option JsValue :=
  match tr with
  | [] => None
  | a :: tr =>
      match lastEnabled tr, a with
      | Some v, _ => Some v
      | None, NotifSetEnabled v => Some v
      | None, _ => None
      end
  end.

Fixpoint lastCooldown (tr : list Action) : option JsValue :=
  match tr with
  | [] => None
  | a :: tr =>
      match lastCooldown tr, a with
      | Some v, _ => Some v
      | None, NotifSetCooldown v => Some v
      | None, _ => None
      end
  end.

(** The settings the panel can produce: every field has the type its
    control delivers, and the shoulder threshold, which has no control,
    has its initial value. *)
Definition panel_settings (p : PostureSettings) : Prop :=
  shoulderAlignmentThreshold p = JsNumber (15 # 1) ∧
  (∃ q, slouchThreshold p = JsNumber q) ∧
  (∃ q, detectionConfidence p = JsNumber q) ∧
  (∃ b, enableNotifications p = JsBoolean b) ∧
  (∃ q, notificationInterval p = JsNumber q).

(** The two integer settings lie on their sliders' grids. *)
Definition in_ranges (p : PostureSettings) : Prop :=
  (∃ n, 10 ≤ n ≤ 30 ∧ slouchThreshold p = JsNumber (inject_Z n)) ∧
  (∃ n, 30 ≤ n ≤ 300 ∧ (30 | n) ∧
        notificationInterval p = JsNumber (inject_Z (n * 1000))).

(** [notificationService] was told the values the panel shows, for each of
    the two settings that was changed at all. *)
Definition notifications_in_sync (c : Ctx) : Prop :=
  match lastEnabled (trace c) with
  | Some v => v = enableNotifications (settings (app c))
  | None => enableNotifications (settings (app c)) = JsBoolean true
  end ∧
  match lastCooldown (trace c) with
  | Some v => v = notificationInterval (settings (app c))
  | None => notificationInterval (settings (app c)) = JsNumber (60000 # 1)
  end.

End App.

(** ** App with its CalibrationModal *)

Module System.

Import Service.

(** [App] renders one [CalibrationModal] (lines 160-164); both use the one
    [postureDetectionService], kept in [Modal.svc]. [startupPending] says
    whether the startup check is still waiting for [loadModel()]. *)
Record Sys := {
  ctx : App.Ctx;
  ui : Modal.World;
  startupPending : bool
}.

(** [App] renders: the modal gets [isOpen = showCalibration]. *)
Definition render (c : App.Ctx) (u : Modal.World) (p : bool) : Sys :=
  {| ctx := c;
     ui := Modal.step_event u
             (Modal.SetIsOpen (App.modal_isOpen (App.render (App.app c))));
     startupPending := p |}.

Definition onService (c : App.Ctx) (s : Service.t) : App.Ctx :=
  {| App.app := App.app c; App.service := s; App.trace := App.trace c |}.

(** A handler of [App] runs, then [App] renders. *)
Definition byApp (m : App.M unit) (s : Sys) : Sys :=
  let c := App.exec m (onService (ctx s) (Modal.svc (ui s))) in
  render c (Modal.with_svc (App.service c) (ui s)) (startupPending s).

(** Something happens in the modal; the callbacks it calls run in [App],
    then [App] renders. *)
Definition byModal (e : Modal.Event) (s : Sys) : Sys :=
  let u := Modal.step_event (ui s) e in
  let c := App.exec (App.deliver (Modal.emitted (ui s) e))
             (onService (ctx s) (Modal.svc u)) in
  render c u (startupPending s).

Inductive Event :=
| User (e : App.Ui)
| InModal (e : Modal.Event)
| StartupLoadSettles (ok : bool).

(** The [isOpen] prop is [App]'s to set and [App] never unmounts the modal,
    so these two events of the modal do not occur on their own. *)
Definition step (s : Sys) (e : Event) : Sys :=
  match e with
  | User e => byApp (App.handle e) s
  | InModal (Modal.SetIsOpen _) => s
  | InModal Modal.Unmount => s
  | InModal e => byModal e s
  | StartupLoadSettles ok =>
      if startupPending s
      then byApp (App.checkCalibration_resume ok)
             {| ctx := ctx s; ui := ui s; startupPending := false |}
      else s
  end.

Definition run (s : Sys) (es : list Event) : Sys := fold_left step es s.

(** The page right after loading: the modal is mounted closed (the
    effects of a child run first), then the startup effect of [App] runs
    up to its [await], or to its end when the model is ready. *)
Definition boot (s0 : Service.t) : Sys :=
  let u := Modal.mount false s0 in
  let '(suspended, c) :=
    App.checkCalibration
      {| App.app := App.initial; App.service := s0; App.trace := [] |} in
  render c (Modal.with_svc (App.service c) u) suspended.

(** The integers the sliders hand over lie on their grids. *)
Definition on_grid (e : Event) : Prop :=
  match e with
  | User u => App.on_grid u
  | _ => True
  end.

(** [App] and its modal agree, and the countdown view is never closed. *)
Definition in_step (s : Sys) : Prop :=
  Modal.mounted (ui s) = true ∧
  Modal.isOpen (ui s) = App.showCalibration (App.app (ctx s)) ∧
  App.service (ctx s) = Modal.svc (ui s) ∧
  (Modal.step (ui s) = 2 → Modal.isOpen (ui s) = true).

(** The service never got a baseline it did not have at loading. *)
Definition not_recalibrated (s0 : Service.t) (s : Sys) : Prop :=
  Modal.no_capture (ui s) ∧
  (calibrationState (Modal.svc (ui s)) = CALIBRATED →
   calibrationState s0 = CALIBRATED ∧
   baseline (Modal.svc (ui s)) = baseline s0).

End System.


(** * Properties of CalibrationModal *)

Section ModalFacts.

Import Service Modal.

(** ** Symbolic evaluation of one event *)

Ltac fields :=
  cbn [mounted isOpen step countdown calibrating error streamRef timer
       pending awaiting dom svc stopped log
       with_mounted with_isOpen with_step with_countdown with_calibrating
       with_error with_streamRef with_timer with_pending with_awaiting
       with_dom with_svc with_stopped emit
       setStep setCountdown setCalibrating setError
       fst snd andb orb negb Bool.eqb
       modelReady calibrationState baseline isModelReady].

Ltac split_atom :=
  match goal with
  | |- context [match ?x with _ => _ end] =>
      first [ is_var x; destruct x
            | match x with
              | Z.eqb ?a ?b => destruct (Z.eqb_spec a b)
              | Z.ltb ?a ?b => destruct (Z.ltb_spec a b)
              | _ !! _ => destruct x as [[]|] eqn:?
              | modelReady ?s => is_var s; destruct (modelReady s) eqn:?
              | isModelReady ?s => is_var s; destruct (isModelReady s) eqn:?
              | _ => fail 1
              end ]
  | |- context [Z.eqb ?a ?b] => destruct (Z.eqb_spec a b)
  | |- context [Z.ltb ?a ?b] => destruct (Z.ltb_spec a b)
  | |- context [modelReady ?s] => is_var s; destruct (modelReady s) eqn:?
  end.

Ltac decide_all := fields; repeat (split_atom; fields; try (exfalso; lia)).

(** Handlers are unfolded from the event inwards, and every condition is
    decided as soon as its arguments are plain fields. *)
Ltac modal_cases :=
  unfold step_event; decide_all;
  unfold performCalibration_resume, calibrate, startCalibration,
    handleComplete, instructions_shown, success_shown; decide_all;
  unfold performCalibration_catch; fields;
  unfold setIsOpen, initCamera_loaded, initCamera_stream, rerender, deps,
    deps_eqb; decide_all;
  unfold countdownEffect, releaseStream, initCamera, initCamera_catch;
  decide_all;
  unfold performCalibration, videoRef_current, canvasRef_current;
  decide_all;
  unfold performCalibration_catch; decide_all.

Lemma run_cons w e es : run w (e :: es) = run (step_event w e) es.
Proof. reflexivity. Qed.

(** An invariant of single events holds along every run. *)
Lemma run_invariant (P : World → Prop) :
  (∀ w e, P w → P (step_event w e)) → ∀ es w, P w → P (run w es).
Proof.
  intros Hstep es. induction es as [|e es IH]; intros w Hw; [done|].
  rewrite run_cons. apply IH, Hstep, Hw.
Qed.

(** ** The countdown stays within 0..5 *)

Lemma countdown_inv_mount b s : countdown_inv (mount b s).
Proof.
  unfold countdown_inv, mount, initCamera.
  destruct b; decide_all; (split; [lia | congruence]).
Qed.

Lemma countdown_inv_step w e :
  countdown_inv w → countdown_inv (step_event w e).
Proof.
  unfold countdown_inv.
  destruct w as [[] [] st cd cal err sr tm pd aw dm sv stp lg].
  all: intros [Hr Ht]; cbn [countdown timer] in Hr, Ht.
  all: destruct e; modal_cases.
  all: try pose proof (Ht _ eq_refl) as [? ?].
  all: try (split; [lia | intros ? [=]; subst; lia]).
  all: split; [lia | first [exact Ht | congruence]].
Qed.

(** C9. In every state the component reaches after being mounted, the
    countdown lies between 0 and 5: it starts at 5, Start Calibration sets
    it to 5, and a timer that will decrement it is pending only while it is
    strictly positive (and then carries the countdown minus one). *)
Theorem countdown_in_range (b : bool) (s : Service.t) (es : list Event) :
  let w := run (mount b s) es in
  countdown (mount b s) = 5 ∧
  countdown (step_event w ClickStart)
    = (if instructions_shown w then 5 else countdown w) ∧
  0 ≤ countdown w ≤ 5 ∧
  ∀ v, timer w = Some v → 0 < countdown w ∧ v = countdown w - 1.
Proof.
  intros w. split; [|split].
  - unfold mount, initCamera. destruct b; decide_all; reflexivity.
  - destruct w as [[] [] st cd cal err sr tm pd aw dm sv stp lg];
      modal_cases; reflexivity.
  - apply (run_invariant countdown_inv countdown_inv_step),
      countdown_inv_mount.
Qed.

(** ** The capture step never reaches [calibrate] *)

Lemma count_snoc (p : Signal → bool) (l : list Signal) (x : Signal) :
  length (List.filter p (l ++ [x]))
  = (length (List.filter p l) + (if p x then 1 else 0))%nat.
Proof.
  rewrite List.filter_app, length_app. cbn. by destruct (p x).
Qed.

Ltac counts :=
  rewrite ?count_snoc;
  cbn [is_calibrate is_frame is_complete loadModel baseline
       calibrationState];
  rewrite ?Nat.add_0_r.

Lemma never_captures_mount b s : never_captures s (mount b s).
Proof.
  unfold never_captures, calibrate_calls, frames_captured, mount, initCamera.
  destruct b; decide_all; counts; cbn; intuition lia.
Qed.

(** In the view of step 2 there is no canvas, so when the countdown
    effect calls [performCalibration] the reference check of line 91
    throws. *)
Lemma never_captures_step s0 w e :
  never_captures s0 w → never_captures s0 (step_event w e).
Proof.
  unfold never_captures, calibrate_calls, frames_captured.
  destruct w as [[] [] st cd cal err sr tm pd aw dm sv stp lg].
  all: intros (Ha & Hc & Hf & Hs & Hb & Hk).
  all: cbn [awaiting log step svc] in Ha, Hc, Hf, Hs, Hb, Hk.
  all: destruct e; modal_cases.
  all: try (exfalso; first [lia | discriminate]).
  all: counts; intuition (first [lia | congruence]).
Qed.

(** From mounting on, [calibrate] is never called, no frame is captured,
    the step is never 3 and the calibration data is never changed. *)
Lemma capture_unreachable (b : bool) (s : Service.t) (es : list Event) :
  never_captures s (run (mount b s) es).
Proof.
  apply (run_invariant (never_captures s) (never_captures_step s)),
    never_captures_mount.
Qed.

(** C4. The run "open, camera granted, Start Calibration, five ticks":
    the countdown goes 5, 4, 3, 2, 1, 0 and [performCalibration] runs at
    the fifth tick (it logs its error there), but the canvas reference is
    null in the countdown view: no frame is captured, [calibrate] is not
    called, and the workflow is back at step 1 with the error message. *)
Theorem countdown_elapsed_without_capture :
  let w0 := run (mount false svc0)
              [SetIsOpen true; GetUserMediaSettles 0 (Some camera);
               Browser (Grabbed frame); ClickStart] in
  let w4 := run w0 [TimerFires; TimerFires; TimerFires; TimerFires] in
  let w5 := step_event w4 TimerFires in
  (step w0, countdown w0, timer w0) = (2, 5, Some 4) ∧
  map (λ k, countdown (run w0 (repeat TimerFires k))) [1; 2; 3; 4; 5]%nat
    = [4; 3; 2; 1; 0] ∧
  (step w4, log w4) = (2, log w0) ∧
  (videoRef_current w4, canvasRef_current w4) = (true, false) ∧
  log w5 = (log w0 ++ [ConsoleError "Calibration error:"])%list ∧
  frames_captured w5 = 0%nat ∧
  calibrate_calls w5 = 0%nat ∧
  step w5 = 1 ∧
  error w5 = Some refsMissing.
Proof. vm_compute. repeat split. Qed.

(** ** Changing [isOpen] *)

(** Closing the modal touches neither the workflow state nor the timer. *)
Lemma setIsOpen_workflow b w :
  let w' := step_event w (SetIsOpen b) in
  mounted w' = mounted w ∧ step w' = step w ∧
  countdown w' = countdown w ∧ timer w' = timer w ∧
  calibrating w' = calibrating w ∧ error w' = error w ∧
  awaiting w' = awaiting w ∧ svc w' = svc w ∧
  calibrate_calls w' = calibrate_calls w ∧
  frames_captured w' = frames_captured w ∧
  isOpen w' = (if mounted w then b else isOpen w).
Proof.
  unfold calibrate_calls, frames_captured.
  destruct w as [[] [] st cd cal err sr tm pd aw dm sv stp lg];
    destruct b; modal_cases; counts; repeat split.
Qed.

(** ** Signals *)



Lemma drop_log (l out : list Signal) : drop (length l) (l ++ out) = out.
Proof. apply drop_app_length. Qed.

Lemma drop_log_nil (l : list Signal) : drop (length l) l = [].
Proof. by apply drop_all. Qed.

(** ** The camera stream *)

(** X4. Closing the modal, or unmounting it, stops every track of the
    stream [streamRef] holds at that moment and clears the reference. *)
Lemma release_held_stream (w : World) (e : Event) (s : MediaStream) (t : nat) :
  e = SetIsOpen false ∨ e = Unmount →
  mounted w = true → isOpen w = true → streamRef w = Some s →
  t ∈ tracks s →
  streamRef (step_event w e) = None ∧ is_live (step_event w e) t = false.
Proof.
  unfold is_live.
  destruct w as [m o st cd cal err sr tm pd aw dm sv stp lg].
  cbn [mounted isOpen streamRef]. intros He -> -> -> Ht.
  destruct He as [-> | ->]; modal_cases.
  all: split; [reflexivity|].
  all: apply bool_decide_eq_false; set_solver.
Qed.

(** A stream that arrives is stored whatever the state of the modal:
    [initCamera] looks at neither [isOpen] nor the previous content of
    [streamRef] after its [await], and stops nothing. *)
Lemma late_stream_is_kept (w : World) (i : nat) (s : MediaStream) :
  pending w !! i = Some AwaitGetUserMedia →
  let w' := step_event w (GetUserMediaSettles i (Some s)) in
  streamRef w' = Some s ∧ stopped w' = stopped w ∧
  isOpen w' = isOpen w ∧ mounted w' = mounted w.
Proof.
  intros Hp. cbn [step_event]. unfold initCamera_stream. rewrite Hp.
  by destruct w.
Qed.

(** C10. The stream can arrive after the modal was closed. Opened, then
    cancelled before [getUserMedia] answers: the answer is stored in
    [streamRef] of the closed modal and its track stays live. The same
    after unmounting. When the modal is opened twice before the first
    answer arrives, the second stream overwrites the first, whose track is
    never stopped. And when the modal is closed while the model is still
    loading, the camera is even requested after the close. *)
Theorem stream_arrives_after_close :
  let w1 := run (mount false svc0)
              [SetIsOpen true; ClickCancel; SetIsOpen false;
               GetUserMediaSettles 0 (Some camera)] in
  let w2 := run (mount false svc0)
              [SetIsOpen true; Unmount;
               GetUserMediaSettles 0 (Some camera)] in
  let w3 := run (mount false svc0)
              [SetIsOpen true; SetIsOpen false; SetIsOpen true;
               GetUserMediaSettles 0 (Some camera);
               GetUserMediaSettles 0 (Some camera2);
               SetIsOpen false] in
  let w4 := run (mount false svcLoading)
              [SetIsOpen true; ClickCancel; SetIsOpen false;
               LoadModelSettles 0 true;
               GetUserMediaSettles 0 (Some camera)] in
  (isOpen w1, streamRef w1, is_live w1 1) = (false, Some camera, true) ∧
  (mounted w2, streamRef w2, is_live w2 1) = (false, Some camera, true) ∧
  (isOpen w3, streamRef w3, is_live w3 1, is_live w3 2)
    = (false, None, true, false) ∧
  (isOpen w4, streamRef w4, is_live w4 1) = (false, Some camera, true) ∧
  log w4 = [LoadModelCalled; OnClose; GetUserMediaCalled].
Proof. vm_compute. repeat split. Qed.

(** ** One calibration attempt, from Start to the failed capture *)

Lemma run_snoc w es e : run w (es ++ [e]) = step_event (run w es) e.
Proof. unfold run. by rewrite fold_left_app. Qed.

Lemma run_app_events w es1 es2 :
  run w (es1 ++ es2) = run (run w es1) es2.
Proof. unfold run. by rewrite fold_left_app. Qed.

Lemma same_surroundings_refl w : same_surroundings w w.
Proof. by unfold same_surroundings. Qed.

Lemma same_surroundings_trans w1 w2 w3 :
  same_surroundings w1 w2 → same_surroundings w2 w3 →
  same_surroundings w1 w3.
Proof. unfold same_surroundings. intuition congruence. Qed.

(** One expiry of the countdown timer, the modal open or closed. *)
Lemma tick w v :
  mounted w = true → step w = 2 →
  timer w = Some v → countdown w = v + 1 → 0 ≤ v →
  let w' := step_event w TimerFires in
  same_surroundings w w' ∧ countdown w' = v ∧
  (0 < v → step w' = 2 ∧ timer w' = Some (v - 1) ∧ error w' = error w ∧
           calibrating w' = calibrating w ∧ log w' = log w) ∧
  (v = 0 → step w' = 1 ∧ timer w' = None ∧ error w' = Some refsMissing ∧
           calibrating w' = false ∧
           log w' = (log w ++ [ConsoleError "Calibration error:"])%list).
Proof.
  unfold same_surroundings.
  destruct w as [m o st cd cal err sr tm pd aw dm sv stp lg].
  cbn [mounted step timer countdown].
  intros -> -> -> -> Hv.
  destruct o; modal_cases; try (exfalso; lia).
  all: repeat split; try reflexivity; intros; lia.
Qed.

Lemma countdown_runs (j : nat) : ∀ w v,
  mounted w = true → step w = 2 →
  timer w = Some v → countdown w = v + 1 → Z.of_nat j ≤ v →
  let w' := run w (repeat TimerFires j) in
  same_surroundings w w' ∧ step w' = 2 ∧
  countdown w' = v + 1 - Z.of_nat j ∧ timer w' = Some (v - Z.of_nat j) ∧
  error w' = error w ∧ calibrating w' = calibrating w ∧ log w' = log w.
Proof.
  induction j as [|j IH]; intros w v Hm Hs Ht Hc Hj.
  - cbn [repeat run fold_left]. split; [apply same_surroundings_refl|].
    repeat split; try done; [lia | rewrite Ht; f_equal; lia].
  - destruct (tick w v Hm Hs Ht Hc) as (Hf & Hc' & Hpos & _); [lia|].
    destruct Hpos as (Hs' & Ht' & He' & Hk' & Hl'); [lia|].
    change (repeat TimerFires (S j)) with (TimerFires :: repeat TimerFires j).
    rewrite run_cons.
    destruct (IH (step_event w TimerFires) (v - 1))
      as (Hf2 & ? & ? & Ht2 & ? & ? & ?); try done; try lia.
    { destruct Hf as (-> & _). done. }
    split; [by eapply same_surroundings_trans|].
    repeat split; try congruence; try lia.
    rewrite Ht2. f_equal. lia.
Qed.

Lemma clickStart_accepted w :
  instructions_shown w = true →
  let w' := step_event w ClickStart in
  same_surroundings w w' ∧ step w' = 2 ∧ countdown w' = 5 ∧
  timer w' = Some 4 ∧ error w' = error w ∧
  calibrating w' = calibrating w ∧ log w' = log w.
Proof.
  unfold same_surroundings, instructions_shown.
  destruct w as [[] [] st cd cal err sr tm pd aw dm sv stp lg];
    cbn [mounted isOpen step andb]; try discriminate.
  intros ->%Z.eqb_eq. modal_cases; repeat split.
Qed.

(** X1. Whatever state the modal is in when Start Calibration is accepted,
    the next four ticks show 4, 3, 2, 1 with the error message of before
    still in place and nothing logged, and the fifth tick ends the attempt
    in the [catch] clause: step 1, countdown 0, no timer, the message
    "Video or canvas reference not available", one console error, no
    capture started. The camera, the service and [isOpen] are untouched
    throughout. *)
Theorem attempt_always_fails (w : World) (k : nat) :
  instructions_shown w = true → (k ≤ 4)%nat →
  let wk := run w (ClickStart :: repeat TimerFires k) in
  let w5 := run w (ClickStart :: repeat TimerFires 5) in
  (same_surroundings w wk ∧ step wk = 2 ∧
   countdown wk = 5 - Z.of_nat k ∧ error wk = error w ∧ log wk = log w) ∧
  (same_surroundings w w5 ∧ step w5 = 1 ∧ countdown w5 = 0 ∧
   timer w5 = None ∧ calibrating w5 = false ∧
   error w5 = Some refsMissing ∧
   log w5 = (log w ++ [ConsoleError "Calibration error:"])%list).
Proof.
  intros Hi Hk wk w5. subst wk w5. rewrite !run_cons.
  destruct (clickStart_accepted w Hi) as (Hf & Hs & Hc & Ht & He & Hcal & Hl).
  set (w1 := step_event w ClickStart) in *.
  assert (Hm : mounted w1 = true).
  { destruct Hf as (-> & _). unfold instructions_shown in Hi.
    by destruct (mounted w). }
  split.
  - destruct (countdown_runs k w1 4 Hm Hs Ht) as (Hf' & ? & ? & ? & ? & ? & ?);
      [lia | lia |].
    split; [by eapply same_surroundings_trans|].
    repeat split; try congruence; lia.
  - change 5%nat with (4 + 1)%nat. rewrite repeat_app, run_app_events.
    destruct (countdown_runs 4 w1 4 Hm Hs Ht)
      as (Hf' & Hs' & Hc' & Ht' & He' & Hcal' & Hl'); [lia | lia |].
    set (w4 := run w1 (repeat TimerFires 4)) in *.
    assert (Hm4 : mounted w4 = true) by (destruct Hf' as (-> & _); done).
    cbn [repeat run fold_left].
    destruct (tick w4 0 Hm4 Hs') as (Hf5 & Hc5 & _ & Hz);
      [rewrite Ht'; f_equal; lia | lia | lia |].
    destruct (Hz eq_refl) as (? & ? & ? & ? & Hl5).
    split; [eapply same_surroundings_trans; [|exact Hf5];
            by eapply same_surroundings_trans|].
    repeat split; try done. rewrite Hl5. congruence.
Qed.

Lemma attempt_always_fails_witness :
  let w := run (mount false svc0)
             [SetIsOpen true; GetUserMediaSettles 0 None] in
  error w = Some cameraMessage ∧
  error (run w (ClickStart :: repeat TimerFires 3)) = Some cameraMessage ∧
  error (run w (ClickStart :: repeat TimerFires 5)) = Some refsMissing.
Proof.
  intros w.
  assert (H34 : (3 ≤ 4)%nat) by lia.
  pose proof (attempt_always_fails w 3 eq_refl H34)
    as ((_ & _ & _ & He & _) & (_ & _ & _ & _ & _ & He5 & _)).
  split; [reflexivity|]. split; [|exact He5].
  transitivity (error w); [exact He | reflexivity].
Defined.

(** ** What no run from mounting does *)

Lemma no_capture_mount b s : no_capture (mount b s).
Proof.
  unfold no_capture, calibrate_calls, frames_captured, completions, mount,
    initCamera.
  destruct b; decide_all; counts; cbn; intuition lia.
Qed.

Lemma no_capture_step w e : no_capture w → no_capture (step_event w e).
Proof.
  unfold no_capture, calibrate_calls, frames_captured, completions.
  destruct w as [[] [] st cd cal err sr tm pd aw dm sv stp lg].
  all: intros (Ha & Hc & Hf & Hs & Hk & Hd).
  all: cbn [awaiting log step calibrating] in Ha, Hc, Hf, Hs, Hk, Hd.
  all: destruct e; modal_cases.
  all: try (exfalso; first [lia | discriminate]).
  all: counts; intuition (first [lia | congruence]).
Qed.

(** X2. In no run from mounting does the modal get anywhere near a
    calibration: [calibrate] is never called, no frame is captured, the
    [calibrating] flag is never left set, the step is always 1 or 2 (the
    "Calibration successful!" view never shows) and
    [onCalibrationComplete] is never called. *)
Theorem modal_never_calibrates (b : bool) (s : Service.t) (es : list Event) :
  let w := run (mount b s) es in
  calibrate_calls w = 0%nat ∧ frames_captured w = 0%nat ∧
  awaiting w = 0%nat ∧ calibrating w = false ∧
  (step w = 1 ∨ step w = 2) ∧ success_shown w = false ∧
  completions w = 0%nat.
Proof.
  intros w.
  assert (no_capture w) as (Ha & Hc & Hf & Hs & Hk & Hd)
    by apply (run_invariant no_capture no_capture_step), no_capture_mount.
  repeat split; try done.
  unfold success_shown.
  destruct (Z.eqb_spec (step w) 3); [lia | by rewrite !andb_false_r].
Qed.

Lemma ticking_mount b s : ticking (mount b s).
Proof.
  unfold ticking, mount, initCamera.
  destruct b; decide_all; (split; [intros; lia | done]).
Qed.

Lemma ticking_step w e : ticking w → ticking (step_event w e).
Proof.
  unfold ticking.
  destruct w as [[] o st cd cal err sr tm pd aw dm sv stp lg].
  all: cbn [mounted step countdown timer].
  - intros [H2 Hn].
    destruct (Z.eq_dec st 2) as [->|Hst].
    + destruct (H2 eq_refl) as [Hcd ->].
      destruct o, e; modal_cases; try (exfalso; lia).
      all: split; intros; try done; try lia.
      all: split; [lia | f_equal; lia].
    + rewrite (Hn Hst).
      destruct o, e; modal_cases; try (exfalso; lia).
      all: split; intros; try done; try lia.
      all: split; [lia | f_equal; lia].
  - intros ->. destruct o, e; modal_cases; done.
Qed.

(** X3. In every state reached from mounting, as long as the component is
    mounted, the countdown view is showing exactly when a timer is pending,
    the countdown shown there is positive and the pending timer is the one
    that will show the next value; so a countdown never stalls and no
    timer runs outside the countdown view. After unmounting no timer is
    pending. *)
Theorem countdown_never_stalls (b : bool) (s : Service.t) (es : list Event) :
  let w := run (mount b s) es in
  (mounted w = true →
   (step w = 2 ↔ timer w ≠ None) ∧
   (step w = 2 → 0 < countdown w ∧ timer w = Some (countdown w - 1))) ∧
  (mounted w = false → timer w = None).
Proof.
  intros w.
  assert (ticking w) as H
    by apply (run_invariant ticking ticking_step), ticking_mount.
  unfold ticking in H. destruct (mounted w).
  - destruct H as [H2 Hn]. split; [|done]. intros _. split; [|done].
    split.
    + intros Hs. destruct (H2 Hs) as [_ ->]. done.
    + intros Ht. destruct (Z.eq_dec (step w) 2); [done|].
      by rewrite Hn in Ht.
  - split; [done|]. by intros _.
Qed.

(** ** The camera *)

(** An open modal that holds the camera: closing it stops the track and
    clears the reference. *)
Lemma release_held_stream_witness :
  let w := run (mount false svc0)
             [SetIsOpen true; GetUserMediaSettles 0 (Some camera)] in
  streamRef w = Some camera ∧
  streamRef (step_event w (SetIsOpen false)) = None ∧
  is_live (step_event w (SetIsOpen false)) 1 = false.
Proof.
  intros w. split; [reflexivity|].
  apply (release_held_stream w (SetIsOpen false) camera 1).
  - left. reflexivity.
  - reflexivity.
  - reflexivity.
  - reflexivity.
  - apply list_elem_of_In. left. reflexivity.
Defined.

(** X5. When the [loadModel()] or the [getUserMedia()] an [initCamera]
    waits for is rejected, that [initCamera] ends in its [catch] clause:
    one console error, the message "Could not access camera. ..." as the
    error of the modal (also when it was the model that failed), no stream
    stored, no further request made. The workflow is not blocked: step,
    countdown and timer are as before, so Start Calibration stays
    available without a camera. *)
Theorem camera_failure_reported (w : World) (i : nat) (e : Event) :
  mounted w = true →
  (pending w !! i = Some AwaitLoadModel ∧ e = LoadModelSettles i false) ∨
  (pending w !! i = Some AwaitGetUserMedia ∧ e = GetUserMediaSettles i None) →
  let w' := step_event w e in
  error w' = Some cameraMessage ∧
  emitted w e = [ConsoleError "Error initializing camera:"] ∧
  pending w' = delete i (pending w) ∧
  streamRef w' = streamRef w ∧ stopped w' = stopped w ∧
  step w' = step w ∧ countdown w' = countdown w ∧ timer w' = timer w ∧
  instructions_shown w' = instructions_shown w.
Proof.
  unfold emitted, instructions_shown.
  destruct w as [m o st cd cal err sr tm pd aw dm sv stp lg].
  cbn [mounted pending]. intros -> [[Hp ->] | [Hp ->]].
  all: cbn [step_event]; unfold initCamera_loaded, initCamera_stream,
         initCamera_catch; cbn [pending]; rewrite Hp; fields.
  all: rewrite drop_log; repeat split.
Qed.

Lemma camera_failure_reported_witness :
  let w := run (mount false svcLoading) [SetIsOpen true] in
  let w' := step_event w (LoadModelSettles 0 false) in
  error_banner w' = Some cameraMessage ∧
  log w' = [LoadModelCalled; ConsoleError "Error initializing camera:"] ∧
  instructions_shown w' = true.
Proof.
  intros w w'.
  assert (Hp : pending w !! 0%nat = Some AwaitLoadModel) by reflexivity.
  pose proof (camera_failure_reported w 0 (LoadModelSettles 0 false)
                eq_refl (or_introl (conj Hp eq_refl)))
    as (He & Hl & _ & _ & _ & _ & _ & _ & Hi).
  repeat split; reflexivity.
Defined.

(** X6. Which events make the modal ask for the camera or for the model.
    [getUserMedia] is called at most once per event, and only when the
    modal is opened while [isModelReady()] is true or when a [loadModel()]
    that an [initCamera] waits for resolves; [loadModel] is called only
    when the modal is opened while [isModelReady()] is false. Opening is
    the only way in: every change of [isOpen] to true starts one
    [initCamera], whether or not an earlier one is still pending. *)
Theorem camera_requests (w : World) (e : Event) :
  length (List.filter is_getUserMedia (emitted w e))
    = (if requests_camera w e then 1 else 0)%nat ∧
  length (List.filter is_loadModel (emitted w e))
    = (if requests_model w e then 1 else 0)%nat ∧
  length (pending (step_event w (SetIsOpen true)))
    = (length (pending w)
       + (if mounted w && negb (isOpen w) then 1 else 0))%nat.
Proof.
  unfold emitted, requests_camera, requests_model.
  destruct w as [[] [] st cd cal err sr tm pd aw dm sv stp lg].
  all: split; [|split].
  all: try (destruct e; modal_cases;
            rewrite <- ?app_assoc, ?drop_log, ?drop_log_nil;
            first [reflexivity | congruence]).
  all: modal_cases; rewrite ?length_app; cbn; lia.
Qed.

(** ** After unmounting *)

Lemma unmounted_step w e :
  mounted w = false → timer w = None →
  let w' := step_event w e in
  mounted w' = false ∧ timer w' = None ∧
  isOpen w' = isOpen w ∧ step w' = step w ∧ countdown w' = countdown w ∧
  calibrating w' = calibrating w ∧ error w' = error w ∧
  callbacks w' = callbacks w ∧
  calibrate_calls w' = calibrate_calls w ∧
  frames_captured w' = frames_captured w.
Proof.
  unfold callbacks, calibrate_calls, frames_captured.
  destruct w as [m o st cd cal err sr tm pd aw dm sv stp lg].
  cbn [mounted timer]. intros -> ->.
  destruct e; modal_cases.
  all: rewrite ?List.filter_app; cbn; rewrite ?app_nil_r; repeat split.
Qed.

(** X7. Unmounting clears the countdown timer, and from then on the
    component is inert: whatever happens afterwards (late answers of
    [loadModel], [getUserMedia] or [calibrate] included), step, countdown,
    [calibrating] and error keep the values they had at unmounting, no
    timer is pending, neither callback is called, no frame is captured and
    [calibrate] is not called. *)
Theorem unmounted_is_inert (w : World) (es : list Event) :
  mounted w = true →
  let w' := run (step_event w Unmount) es in
  mounted w' = false ∧ timer w' = None ∧
  isOpen w' = isOpen w ∧ step w' = step w ∧ countdown w' = countdown w ∧
  calibrating w' = calibrating w ∧ error w' = error w ∧
  callbacks w' = callbacks w ∧
  calibrate_calls w' = calibrate_calls w ∧
  frames_captured w' = frames_captured w.
Proof.
  intros Hm.
  set (P := λ w' : World,
         mounted w' = false ∧ timer w' = None ∧
         isOpen w' = isOpen w ∧ step w' = step w ∧
         countdown w' = countdown w ∧ calibrating w' = calibrating w ∧
         error w' = error w ∧ callbacks w' = callbacks w ∧
         calibrate_calls w' = calibrate_calls w ∧
         frames_captured w' = frames_captured w).
  apply (run_invariant P).
  - intros u e (Hu & Ht & H).
    destruct (unmounted_step u e Hu Ht)
      as (? & ? & ? & ? & ? & ? & ? & ? & ? & ?).
    unfold P. repeat split; try done; intuition congruence.
  - unfold P, callbacks, calibrate_calls, frames_captured.
    destruct w as [m o st cd cal err sr tm pd aw dm sv stp lg].
    cbn [mounted] in Hm. subst m. modal_cases; repeat split.
Qed.

Lemma unmounted_is_inert_witness :
  let w := run (mount false svc0)
             [SetIsOpen true; ClickStart; TimerFires] in
  let w' := run (step_event w Unmount)
              [TimerFires; GetUserMediaSettles 0 (Some camera); ClickCancel] in
  countdown w = 4 ∧ countdown w' = 4 ∧ timer w' = None.
Proof.
  intros w w'.
  pose proof (unmounted_is_inert w
                [TimerFires; GetUserMediaSettles 0 (Some camera); ClickCancel]
                eq_refl) as (_ & Ht & _ & _ & Hc & _).
  split; [reflexivity|]. split; [|exact Ht].
  transitivity (countdown w); [exact Hc | reflexivity].
Defined.

(** ** How single events show to the parent *)

Lemma event_mounted_isOpen w e :
  mounted (step_event w e)
    = match e with Unmount => false | _ => mounted w end ∧
  isOpen (step_event w e)
    = match e with
      | SetIsOpen b => if mounted w then b else isOpen w
      | _ => isOpen w
      end.
Proof.
  destruct w as [[] [] st cd cal err sr tm pd aw dm sv stp lg];
    destruct e; modal_cases; split; reflexivity.
Qed.

(** What an event makes the modal say to its parent, and the clicks
    for which the current view has no button. *)
Lemma callbacks_of_event (w : World) (e : Event) :
  List.filter is_callback (emitted w e)
    = match e with
      | ClickCancel => if instructions_shown w then [OnClose] else []
      | ClickContinue =>
          if success_shown w then [OnCalibrationComplete; OnClose] else []
      | _ => []
      end ∧
  match e with
  | ClickCancel => step_event w e
                   = if instructions_shown w then emit OnClose w else w
  | ClickStart => instructions_shown w = false → step_event w e = w
  | ClickContinue => success_shown w = false → step_event w e = w
  | _ => True
  end.
Proof.
  split.
  - unfold emitted.
    destruct w as [[] [] st cd cal err sr tm pd aw dm sv stp lg];
      destruct e; modal_cases;
      rewrite <- ?app_assoc, ?drop_log, ?drop_log_nil; reflexivity.
  - destruct e; try exact I; cbn [step_event]; try reflexivity.
    all: by intros ->.
Qed.

(** X8. The modal calls its callbacks on two occasions only: [onClose] on
    Cancel in the instructions view, and [onCalibrationComplete] followed
    by [onClose] on Continue in the success view. A failed capture, a
    camera error or the end of the countdown never ask the parent to
    close the modal, and a click the current view has no button for does
    nothing at all. *)
Theorem callbacks_emitted (w : World) (e : Event) :
  List.filter is_callback (emitted w e)
    = match e with
      | ClickCancel => if instructions_shown w then [OnClose] else []
      | ClickContinue =>
          if success_shown w then [OnCalibrationComplete; OnClose] else []
      | _ => []
      end ∧
  match e with
  | ClickCancel => step_event w e
                   = if instructions_shown w then emit OnClose w else w
  | ClickStart => instructions_shown w = false → step_event w e = w
  | ClickContinue => success_shown w = false → step_event w e = w
  | _ => True
  end.
Proof. exact (callbacks_of_event w e). Qed.

Lemma countdown_entered_by_start w e :
  step (step_event w e) = 2 →
  step w = 2 ∨ (e = ClickStart ∧ instructions_shown w = true).
Proof.
  destruct w as [[] [] st cd cal err sr tm pd aw dm sv stp lg];
    destruct e; modal_cases; intros Hstep; try (left; lia);
    try (right; split; reflexivity); try discriminate;
    try (left; exact Hstep).
Qed.

(** With no capture in flight an event leaves the calibration data of the
    service alone. *)
Lemma calibration_data_kept w e :
  no_capture w →
  baseline (svc (step_event w e)) = baseline (svc w) ∧
  calibrationState (svc (step_event w e)) = calibrationState (svc w).
Proof.
  intros (Ha & Hc & Hf & Hs & _ & _).
  assert (never_captures (svc w) w) as H by (unfold never_captures; tauto).
  apply (never_captures_step _ _ e) in H.
  unfold never_captures in H. tauto.
Qed.

(** ** The countdown cell between attempts *)

Ltac attempts :=
  rewrite ?count_snoc; cbn [is_attempt_error]; simpl (String.eqb _ _);
  cbn iota; rewrite ?Nat.add_0_r.

Lemma idle_countdown_mount b s : idle_countdown (mount b s).
Proof.
  unfold idle_countdown, failed_attempts, mount, initCamera.
  destruct b; decide_all; attempts; cbn; intros _; (split; [done | lia]).
Qed.

(** The countdown cell is written by Start Calibration, which leaves the
    instructions view, and by the ticks; the view comes back only with
    the tick that writes 0 and fails the capture. *)
Lemma idle_countdown_step w e :
  no_capture w → ticking w → idle_countdown w →
  idle_countdown (step_event w e).
Proof.
  unfold no_capture, ticking, idle_countdown, failed_attempts.
  destruct w as [m o st cd cal err sr tm pd aw dm sv stp lg].
  cbn [mounted step countdown timer awaiting log calibrating].
  intros (-> & _ & _ & Hs12 & _) Ht Hi.
  destruct m.
  - destruct Ht as [H2 Hn]. destruct Hs12 as [-> | ->].
    + rewrite (Hn ltac:(lia)). specialize (Hi eq_refl).
      destruct o, e; modal_cases; attempts; intros; try done; try lia.
    + destruct (H2 eq_refl) as [Hcd ->].
      destruct o, e; modal_cases; attempts; intros; try done; try lia.
      all: split; intros; lia.
  - subst tm.
    destruct o, e; modal_cases; attempts; done.
Qed.

Lemma settled_mount b s : settled (mount b s).
Proof.
  split; [apply no_capture_mount|].
  split; [apply ticking_mount | apply idle_countdown_mount].
Qed.

Lemma settled_step w e : settled w → settled (step_event w e).
Proof.
  intros (Hn & Ht & Hi).
  split; [by apply no_capture_step|].
  split; [by apply ticking_step | by apply idle_countdown_step].
Qed.

Lemma settled_with_svc w v : settled w → settled (with_svc v w).
Proof. by destruct w. Qed.

(** Changing [isOpen] logs no failed attempt. *)
Lemma setIsOpen_attempts b w :
  failed_attempts (step_event w (SetIsOpen b)) = failed_attempts w.
Proof.
  unfold failed_attempts.
  destruct w as [[] [] st cd cal err sr tm pd aw dm sv stp lg];
    destruct b; modal_cases; attempts; reflexivity.
Qed.

End ModalFacts.

(** * Properties of App *)

Section AppFacts.

Import Service.
Import App.

Ltac app_eval :=
  cbv [exec startup checkCalibration checkCalibration_resume
       checkCalibration_tail handleRecalibrate callClearCalibrationData
       callService clearCalibrationData handleSettingChange
       handleCalibrationComplete onClose onCalibrationNeeded toggleSettings
       setShowCalibration setShowSettings setSettings record modifyApp
       modifyService getService mbind mret M_bind M_ret render shows
       service_calls];
  cbn.

(** ** Settings *)

(** X9. What [handleSettingChange] does, for every key and value: it
    stores the value in the settings object of [App] and forwards the two
    notification settings to [notificationService]. Nothing goes to
    [postureDetectionService], and the props of [CameraFeed] and
    [CalibrationModal] do not change. *)
Lemma setting_change_effects (c : Ctx) (k : SettingKey) (v : JsValue) :
  let c' := exec (handleSettingChange k v) c in
  settings (app c') = assign (settings (app c)) k v ∧
  service c' = service c ∧
  render (app c') = render (app c) ∧
  trace c' = (trace c ++
              match k with
              | KEnableNotifications => [NotifSetEnabled v]
              | KNotificationInterval => [NotifSetCooldown v]
              | _ => []
              end)%list.
Proof.
  destruct c as [a sv tr], k; app_eval; rewrite ?app_nil_r; done.
Qed.

(** What the children are given does not depend on the settings. *)
Lemma render_ignores_settings (a : State) (ps : PostureSettings) :
  render {| showSettings := showSettings a;
            showCalibration := showCalibration a;
            settings := ps |} = render a.
Proof. reflexivity. Qed.

(** C3. Moving the slouch threshold slider to 25 on a fresh [App]: the
    new value is in the settings object of [App] and nowhere else. No call
    is made on any service, the detection service is untouched, and the
    props given to [CameraFeed] and [CalibrationModal] are the ones of
    before, so no classification or calibration call can see the value.
    The sibling setting [enableNotifications] is forwarded to its
    service. *)
Theorem threshold_change_not_forwarded (s : Service.t) :
  let c0 := {| app := initial; service := s; trace := [] |} in
  let c1 := exec (handleSettingChange KSlouchThreshold (JsNumber (25 # 1))) c0 in
  let c2 := exec (handleSettingChange KEnableNotifications (JsBoolean false)) c0 in
  slouchThreshold (settings (app c1)) = JsNumber (25 # 1) ∧
  service_calls (trace c1) = [] ∧
  service c1 = s ∧
  render (app c1) = render initial ∧
  cameraFeed_data (render (app c1)) = [] ∧
  service_calls (trace c2) = [NotifSetEnabled (JsBoolean false)].
Proof. app_eval. repeat split. Qed.

(** ** Startup *)

(** C7. After the startup check of a fresh [App], whatever the outcome of
    the model load, the modal is open exactly when [isCalibrationNeeded()]
    returns true, which is exactly when the calibration state is
    NOT_CALIBRATED; the check asks for the modal at most once and never
    closes it. The same holds of the part of the check that runs after the
    load has settled, in whatever state [App] is by then. *)
Theorem startup_opens_iff_needed (ok : bool) (s : Service.t) (c : Ctx) :
  let c1 := startup ok s in
  let c2 := exec (checkCalibration_resume ok) c in
  modal_isOpen (render (app c1)) = isCalibrationNeeded (service c1) ∧
  isCalibrationNeeded (service c1) = isCalibrationNeeded s ∧
  (isCalibrationNeeded s = true ↔ calibrationState s = NOT_CALIBRATED) ∧
  shows (trace c1)
    = (if isCalibrationNeeded s then [SetShowCalibration true] else []) ∧
  modal_isOpen (render (app c2))
    = (isCalibrationNeeded (service c) || showCalibration (app c)) ∧
  isCalibrationNeeded (service c2) = isCalibrationNeeded (service c).
Proof.
  destruct s as [[] [] bl], c as [a [r [] b] tr], ok; app_eval.
  all: repeat split; done.
Qed.

(** ** Recalibration *)

(** C8, as the code has it. [handleRecalibrate] first calls
    [clearCalibrationData()]. When the call returns, it then asks for the
    modal: in the trace the clear comes before the
    [setShowCalibration(true)], afterwards [isCalibrationNeeded()] returns
    true, no baseline is stored and the modal is rendered open. When the
    call throws, the exception leaves the handler: nothing follows the
    clear, the state of [App] is the one of before and so is the props of
    the modal. *)
Theorem recalibrate_opens_when_clear_returns (c : Ctx) (o : ClearOutcome) :
  let c' := exec (handleRecalibrate o) c in
  match o with
  | Cleared =>
      trace c'
        = (trace c ++ [SvcClearCalibrationData; SetShowCalibration true])%list ∧
      isCalibrationNeeded (service c') = true ∧
      baseline (service c') = None ∧
      modal_isOpen (render (app c')) = true
  | ClearThrows e =>
      trace c' = (trace c ++ [SvcClearCalibrationData; Uncaught e])%list ∧
      app c' = app c ∧
      service c' = service c ∧
      render (app c') = render (app c)
  end.
Proof.
  destruct c as [a sv tr], o; app_eval; rewrite <- ?app_assoc; done.
Qed.

(** C8 as stated fails when the storage fails: Recalibrate Posture is
    clicked while a baseline is stored and [clearCalibrationData()] throws
    a StorageError. The clear was called, but the modal is not opened and
    calibration is not needed afterwards. *)
Lemma recalibrate_not_opened_when_clear_throws :
  let c := {| app := initial; service := Modal.svcCalibrated; trace := [] |} in
  let c' := exec (handleRecalibrate (ClearThrows (ErrorObj "StorageError"))) c in
  trace c' = [SvcClearCalibrationData; Uncaught (ErrorObj "StorageError")] ∧
  shows (trace c') = [] ∧
  modal_isOpen (render (app c')) = false ∧
  isCalibrationNeeded (service c') = false ∧
  ¬ (isCalibrationNeeded (service c') = true ∧
     modal_isOpen (render (app c')) = true).
Proof.
  vm_compute. repeat split. intros [H _]. discriminate H.
Qed.

(** ** The settings panel *)

Ltac ui_eval := cbv [handle inPanel deliver onSignal]; app_eval.

(** X10. After [handleSettingChange(key, value)] the settings object
    reads [value] at [key] and what it read before at every other key;
    the two flags of [App] are untouched. *)
Theorem setting_change_reads_back (c : Ctx) (k : SettingKey) (v : JsValue) :
  let c' := exec (handleSettingChange k v) c in
  get (settings (app c')) k = v ∧
  (∀ k', k' ≠ k → get (settings (app c')) k' = get (settings (app c)) k') ∧
  showSettings (app c') = showSettings (app c) ∧
  showCalibration (app c') = showCalibration (app c).
Proof.
  destruct c as [a sv tr], k; app_eval; repeat split; try done.
  all: intros k' Hk; destruct k'; done.
Qed.

(** An integer of at most 53 bits is a double. *)
Lemma toDouble_exact (z : Z) :
  Z.abs z < 9007199254740992 → toDouble z = z.
Proof.
  intros Hz. unfold toDouble. cbv zeta.
  destruct (Z.leb_spec (Z.log2 (Z.abs z) - 52) 0) as [_ | Hk]; [reflexivity|].
  exfalso.
  assert (Ha : 0 < Z.abs z).
  { destruct (Z.eq_dec (Z.abs z) 0) as [E|]; [|lia].
    rewrite E in Hk. cbn in Hk. lia. }
  assert (Z.log2 (Z.abs z) < 53); [|lia].
  apply Z.log2_lt_pow2; [exact Ha|]. change (2 ^ 53) with 9007199254740992.
  exact Hz.
Qed.

(** Longer integers are rounded to 53 bits, ties to even. *)
Lemma toDouble_rounds :
  toDouble (9007199254740991 * 1000) = 9007199254740990976 ∧
  toDouble 9007199254740993 = 9007199254740992 ∧
  toDouble 9007199254740995 = 9007199254740996 ∧
  toDouble 18014398509481986 = 18014398509481984 ∧
  toDouble 18014398509481990 = 18014398509481992 ∧
  toDouble (-9007199254740993) = -9007199254740992.
Proof. vm_compute. repeat split. Qed.

Lemma slider_values_exact (n : Z) :
  Z.abs n ≤ 1000000 →
  toDouble n = n ∧ toDouble (n * 1000) = n * 1000.
Proof.
  intros Hn. split; apply toDouble_exact; lia.
Qed.

(** X11. The interval slider works in seconds, the setting and
    [notificationService] in milliseconds: with the panel open, moving the
    slider to a value [n] of its grid (30, 60, ..., 300) stores
    [n * 1000], passes [n * 1000] to [setCooldown], and the panel then
    shows [n] seconds again. With the panel closed there is no slider and
    nothing changes. *)
Theorem interval_slider_round_trip (c : Ctx) (n : Z) :
  on_grid (SlideInterval n) →
  let c' := exec (handle (SlideInterval n)) c in
  if showSettings (app c)
  then notificationInterval (settings (app c')) = JsNumber (inject_Z (n * 1000)) ∧
       trace c' = (trace c ++ [NotifSetCooldown (JsNumber (inject_Z (n * 1000)))])%list ∧
       (intervalShown (settings (app c')) == inject_Z n)%Q
  else c' = c.
Proof.
  intros [Hn _].
  destruct (slider_values_exact n) as [Hx Hy]; [lia|].
  destruct c as [[[] sc p] sv tr]; ui_eval; [|reflexivity].
  rewrite Hx, Hy. repeat split.
  unfold intervalShown, toNumber, inject_Z, Qeq, Qdiv. cbn. lia.
Qed.

(** The slider moved to 90 seconds in the open panel of a fresh page. *)
Lemma interval_slider_round_trip_witness :
  let c := exec toggleSettings
             {| app := initial; service := Modal.svc0; trace := [] |} in
  let c' := exec (handle (SlideInterval 90)) c in
  showSettings (app c) = true ∧
  notificationInterval (settings (app c')) = JsNumber (inject_Z 90000) ∧
  lastCooldown (trace c') = Some (JsNumber (inject_Z 90000)).
Proof.
  intros c c'.
  assert (Hg : on_grid (SlideInterval 90)).
  { split; [lia | by exists 3]. }
  pose proof (interval_slider_round_trip c 90 Hg) as H.
  change (showSettings (app c)) with true in H. cbv zeta in H.
  destruct H as (Hs & Ht & _).
  split; [reflexivity|]. split; [exact Hs|].
  fold c' in Ht |- *. rewrite Ht. reflexivity.
Defined.

Lemma lastEnabled_snoc tr a :
  lastEnabled (tr ++ [a])
  = match a with NotifSetEnabled v => Some v | _ => lastEnabled tr end.
Proof.
  induction tr as [|b tr IH]; cbn; [by destruct a|].
  rewrite IH. destruct a; try done.
Qed.

Lemma lastCooldown_snoc tr a :
  lastCooldown (tr ++ [a])
  = match a with NotifSetCooldown v => Some v | _ => lastCooldown tr end.
Proof.
  induction tr as [|b tr IH]; cbn; [by destruct a|].
  rewrite IH. destruct a; try done.
Qed.

(** What a handler of the page does to the flag [showCalibration], to the
    service and to the settings. *)
Lemma handle_effects (c : Ctx) (e : Ui) :
  let c' := exec (handle e) c in
  (showCalibration (app c') = showCalibration (app c) ∨
   showCalibration (app c') = true) ∧
  (service c' = service c ∨
   service c' = (clearCalibrationData Cleared (service c)).2) ∧
  (panel_settings (settings (app c)) → panel_settings (settings (app c'))) ∧
  (on_grid e → in_ranges (settings (app c)) → in_ranges (settings (app c'))) ∧
  (notifications_in_sync c → notifications_in_sync c').
Proof.
  unfold panel_settings, in_ranges, notifications_in_sync.
  destruct c as [[ss sc p] sv tr], e as [| |n|n| |[|x]| |], ss; ui_eval.
  all: rewrite ?lastEnabled_snoc, ?lastCooldown_snoc, ?app_nil_r.
  all: repeat split; try tauto; try (by left); try (by right).
  all: try (intros (? & ? & ? & ? & ?); repeat split; eauto; fail).
  all: try (intros Hg (? & ?); repeat split; eauto; fail).
  all: try (eexists; reflexivity).
  all: destruct (slider_values_exact n) as [Hx Hy]; [cbn in *; lia|].
  all: rewrite ?Hx, ?Hy; exists n; cbn in *; tauto.
Qed.

Lemma exec_deliver_cons (x : Modal.Signal) (ss : list Modal.Signal) (c : Ctx) :
  exec (deliver (x :: ss)) c = exec (deliver ss) (exec (onSignal x) c).
Proof.
  cbn [deliver]. unfold exec, mbind, M_bind. by destruct (onSignal x c).
Qed.

(** What the callbacks of the modal do in [App]: any of them closes the
    modal, and that is all. *)
Lemma deliver_effects (ss : list Modal.Signal) : ∀ c : Ctx,
  let c' := exec (deliver ss) c in
  showCalibration (app c')
    = match List.filter Modal.is_callback ss with
      | [] => showCalibration (app c)
      | _ => false
      end ∧
  service c' = service c ∧
  settings (app c') = settings (app c) ∧
  lastEnabled (trace c') = lastEnabled (trace c) ∧
  lastCooldown (trace c') = lastCooldown (trace c).
Proof.
  induction ss as [|x ss IH]; intros c; [by destruct c|].
  rewrite exec_deliver_cons.
  destruct (IH (exec (onSignal x) c)) as (Hs & Hv & Hp & He & Hc).
  cbn zeta. rewrite Hs, Hv, Hp, He, Hc. clear.
  destruct c as [[ss' sc p] sv tr], x; ui_eval;
    rewrite ?lastEnabled_snoc, ?lastCooldown_snoc; repeat split;
    by destruct (List.filter Modal.is_callback ss).
Qed.

Lemma resume_effects (ok : bool) (c : Ctx) :
  let c' := exec (checkCalibration_resume ok) c in
  showCalibration (app c')
    = (isCalibrationNeeded (service c) || showCalibration (app c)) ∧
  service c' = loadModel ok (service c) ∧
  settings (app c') = settings (app c) ∧
  lastEnabled (trace c') = lastEnabled (trace c) ∧
  lastCooldown (trace c') = lastCooldown (trace c).
Proof.
  destruct c as [[ss' sc p] [r [] bl] tr], ok; ui_eval;
    rewrite ?lastEnabled_snoc, ?lastCooldown_snoc; repeat split.
Qed.

End AppFacts.

(** * Properties of App together with its modal *)

Section SystemFacts.

Import Service.
Import System.

Lemma sys_run_invariant (P : Sys → Prop) :
  (∀ s e, P s → P (step s e)) → ∀ es s, P s → P (run s es).
Proof.
  intros Hstep es. induction es as [|e es IH]; intros s Hs; [done|].
  cbn. apply IH, Hstep, Hs.
Qed.

Lemma render_in_step (c : App.Ctx) (u : Modal.World) (p : bool) :
  Modal.mounted u = true → App.service c = Modal.svc u →
  (Modal.step u = 2 → App.showCalibration (App.app c) = true) →
  in_step (render c u p).
Proof.
  intros Hm Hv H2. unfold in_step, render. cbn [ui ctx].
  destruct (setIsOpen_workflow (App.showCalibration (App.app c)) u)
    as (Hm' & Hs' & _ & _ & _ & _ & _ & Hv' & _ & _ & Ho').
  cbn [App.render App.modal_isOpen].
  rewrite Hm', Hs', Hv', Ho', Hm. repeat split; try done.
Qed.

Lemma in_step_boot s0 : in_step (boot s0).
Proof.
  unfold boot. destruct s0 as [[] [] bl]; cbn; apply render_in_step; done.
Qed.

Lemma byModal_in_step s e :
  e ≠ Modal.Unmount → in_step s → in_step (byModal e s).
Proof.
  intros He (Hm & Ho & Hv & H2). unfold byModal.
  destruct (event_mounted_isOpen (ui s) e) as [Hm' Ho'].
  destruct (deliver_effects (Modal.emitted (ui s) e)
              (onService (ctx s) (Modal.svc (Modal.step_event (ui s) e))))
    as (Hshow & Hserv & _).
  destruct (callbacks_of_event (ui s) e) as [Hcb Hsame].
  apply render_in_step.
  - rewrite Hm'. by destruct e.
  - by rewrite Hserv.
  - intros Hs. rewrite Hshow, Hcb. cbn [onService App.app].
    destruct (countdown_entered_by_start _ _ Hs) as [Hs0 | [-> Hi]].
    + specialize (H2 Hs0). rewrite <- Ho, H2.
      unfold Modal.instructions_shown, Modal.success_shown.
      rewrite Hs0. cbn. rewrite !andb_false_r. by destruct e.
    + rewrite <- Ho. unfold Modal.instructions_shown in Hi.
      destruct (Modal.mounted (ui s)), (Modal.isOpen (ui s)); done.
Qed.

Lemma in_step_step s e : in_step s → in_step (step s e).
Proof.
  intros Hin. pose proof Hin as (Hm & Ho & Hv & H2).
  destruct e as [e | e | ok]; cbn [step].
  - unfold byApp.
    destruct (handle_effects (onService (ctx s) (Modal.svc (ui s))) e)
      as (Hshow & _).
    apply render_in_step; try done.
    cbn [Modal.step Modal.with_svc]. intros Hs.
    destruct Hshow as [-> | ->]; [|done].
    cbn. rewrite <- Ho. by apply H2.
  - destruct e; try done; by apply byModal_in_step.
  - destruct (startupPending s); [|done]. unfold byApp. cbn [ui ctx].
    destruct (resume_effects ok (onService (ctx s) (Modal.svc (ui s))))
      as (Hshow & _).
    apply render_in_step; try done.
    cbn [Modal.step Modal.with_svc]. intros Hs.
    rewrite Hshow. cbn. rewrite <- Ho, (H2 Hs). apply orb_true_r.
Qed.

(** Whatever every event of the modal keeps, and does not depend on the
    service, is kept by the modal inside the page. *)
Lemma ui_invariant (P : Modal.World → Prop) :
  (∀ w e, P w → P (Modal.step_event w e)) →
  (∀ w v, P w → P (Modal.with_svc v w)) →
  ∀ s e, P (ui s) → P (ui (step s e)).
Proof.
  intros Hev Hsvc s e HP.
  destruct e as [e | e | ok]; cbn [step].
  - unfold byApp, render. cbn [ui]. by apply Hev, Hsvc.
  - destruct e; try done; unfold byModal, render; cbn [ui]; by do 2 apply Hev.
  - destruct (startupPending s); [|done].
    unfold byApp, render. cbn [ui]. by apply Hev, Hsvc.
Qed.

Lemma ui_invariant_boot (P : Modal.World → Prop) (s0 : Service.t) :
  (∀ w e, P w → P (Modal.step_event w e)) →
  (∀ w v, P w → P (Modal.with_svc v w)) →
  (∀ b s, P (Modal.mount b s)) →
  ∀ es, P (ui (run (boot s0) es)).
Proof.
  intros Hev Hsvc Hmount es.
  apply (sys_run_invariant (λ s, P (ui s))).
  - intros s e. by apply ui_invariant.
  - unfold boot.
    destruct (App.checkCalibration _) as [suspended c].
    unfold render. cbn [ui]. apply Hev, Hsvc, Hmount.
Qed.

(** X12. In the running page the modal always shows what [App] asks for
    ([isOpen] equals [showCalibration]), it is never unmounted, and it is
    never closed while it counts down: whenever the step is 2, and
    whenever a countdown timer is pending, the modal is open. So inside
    [App] a countdown, once started, is always seen through to the
    capture attempt. *)
Theorem countdown_never_dismissed_in_app
    (s0 : Service.t) (es : list Event) :
  let s := run (boot s0) es in
  Modal.mounted (ui s) = true ∧
  Modal.isOpen (ui s) = App.showCalibration (App.app (ctx s)) ∧
  (Modal.step (ui s) = 2 → Modal.isOpen (ui s) = true) ∧
  (Modal.timer (ui s) ≠ None → Modal.isOpen (ui s) = true).
Proof.
  intros s.
  assert (in_step s) as (Hm & Ho & Hv & H2)
    by apply (sys_run_invariant in_step in_step_step), in_step_boot.
  assert (Modal.ticking (ui s)) as Ht.
  { apply (ui_invariant_boot Modal.ticking s0 ticking_step);
      [by intros [] | apply ticking_mount]. }
  repeat split; try done.
  intros Htm. apply H2. unfold Modal.ticking in Ht. rewrite Hm in Ht.
  destruct Ht as [_ Hn].
  destruct (Z.eq_dec (Modal.step (ui s)) 2) as [|Hne]; [done|].
  by rewrite (Hn Hne) in Htm.
Qed.

Lemma no_capture_in_app (s0 : Service.t) (es : list Event) :
  Modal.no_capture (ui (run (boot s0) es)).
Proof.
  apply (ui_invariant_boot Modal.no_capture s0 no_capture_step);
    [by intros [] | apply no_capture_mount].
Qed.

Lemma byModal_closes s m :
  in_step s → Modal.no_capture (ui s) → Modal.isOpen (ui s) = true →
  App.showCalibration (App.app (ctx (byModal m s))) = false →
  m = Modal.ClickCancel ∧ Modal.step (ui s) = 1.
Proof.
  intros (Hm & Ho & _) (_ & _ & _ & Hs12 & _) Hopen Hc.
  rewrite Hopen in Ho.
  unfold byModal, render in Hc. cbn [ctx] in Hc.
  destruct (deliver_effects (Modal.emitted (ui s) m)
              (onService (ctx s) (Modal.svc (Modal.step_event (ui s) m))))
    as (Hshow & _).
  rewrite Hshow in Hc. clear Hshow.
  destruct (callbacks_of_event (ui s) m) as [Hcb _]. rewrite Hcb in Hc.
  cbn [onService App.app] in Hc.
  destruct m; try congruence.
  - unfold Modal.instructions_shown in Hc.
    destruct (Z.eqb_spec (Modal.step (ui s)) 1) as [Hs1|];
      [done | rewrite andb_false_r in Hc; congruence].
  - unfold Modal.success_shown in Hc.
    destruct (Z.eqb_spec (Modal.step (ui s)) 3);
      [lia | rewrite andb_false_r in Hc; congruence].
Qed.

(** X13. In the running page the modal can be closed in one way only: by
    Cancel in the instructions view. No other event, of the user, of the
    timer or of a settling promise, takes an open modal away. *)
Theorem modal_closes_only_by_cancel
    (s0 : Service.t) (es : list Event) (e : Event) :
  let s := run (boot s0) es in
  Modal.isOpen (ui s) = true →
  Modal.isOpen (ui (step s e)) = false →
  e = InModal Modal.ClickCancel ∧ Modal.step (ui s) = 1.
Proof.
  intros s Hopen Hclosed.
  assert (in_step s) as Hin
    by apply (sys_run_invariant in_step in_step_step), in_step_boot.
  pose proof (in_step_step s e Hin) as (_ & Ho' & _).
  rewrite Hclosed in Ho'. symmetry in Ho'.
  pose proof (no_capture_in_app s0 es) as Hnc. fold s in Hnc.
  pose proof Hin as (Hm & Ho & _). rewrite Hopen in Ho.
  destruct e as [e | e | ok].
  - exfalso. cbn [step] in Ho'. unfold byApp, render in Ho'. cbn [ctx] in Ho'.
    destruct (handle_effects (onService (ctx s) (Modal.svc (ui s))) e)
      as ([Hshow | Hshow] & _); rewrite Hshow in Ho'; cbn in Ho'; congruence.
  - destruct e; cbn [step] in Ho'; try congruence;
      destruct (byModal_closes s _ Hin Hnc Hopen Ho') as [? ?];
      try discriminate; done.
  - exfalso. cbn [step] in Ho'. destruct (startupPending s); [|congruence].
    unfold byApp, render in Ho'. cbn [ctx ui] in Ho'.
    destruct (resume_effects ok (onService (ctx s) (Modal.svc (ui s))))
      as (Hshow & _).
    rewrite Hshow in Ho'. cbn in Ho'. rewrite <- Ho, orb_true_r in Ho'.
    congruence.
Qed.


Lemma modal_closes_only_by_cancel_witness :
  Modal.step (ui (boot Modal.svc0)) = 1 ∧
  Modal.isOpen (ui (step (boot Modal.svc0) (InModal Modal.ClickCancel)))
    = false.
Proof.
  split; [|reflexivity].
  exact (proj2 (modal_closes_only_by_cancel Modal.svc0 []
                  (InModal Modal.ClickCancel) eq_refl eq_refl)).
Defined.

(** ** Calibration in the running page *)

Lemma calibrated_kept_step (s0 : Service.t) (s : Sys) (e : Event) :
  not_recalibrated s0 s → not_recalibrated s0 (step s e).
Proof.
  intros [Hnc Hcal]. split.
  { apply (ui_invariant Modal.no_capture no_capture_step); [by intros []|done]. }
  assert (Hrender : ∀ c u p,
            Modal.svc (ui (render c u p)) = Modal.svc u).
  { intros c u p. unfold render. cbn [ui].
    by destruct (setIsOpen_workflow
                   (App.modal_isOpen (App.render (App.app c))) u)
      as (_ & _ & _ & _ & _ & _ & _ & -> & _). }
  destruct e as [e | e | ok]; cbn [step].
  - unfold byApp. rewrite Hrender. cbn [Modal.svc Modal.with_svc].
    destruct (handle_effects (onService (ctx s) (Modal.svc (ui s))) e)
      as (_ & [-> | ->] & _); cbn; [done | discriminate].
  - assert (Hm : ∀ m, calibrationState (Modal.svc (ui (byModal m s))) = CALIBRATED →
                   calibrationState s0 = CALIBRATED ∧
                   baseline (Modal.svc (ui (byModal m s))) = baseline s0).
    { intros m. unfold byModal. rewrite Hrender.
      destruct (calibration_data_kept (ui s) m Hnc) as [-> ->]. done. }
    destruct e; try done; apply Hm.
  - destruct (startupPending s); [|done].
    unfold byApp. rewrite Hrender. cbn [Modal.svc Modal.with_svc ui ctx].
    destruct (resume_effects ok (onService (ctx s) (Modal.svc (ui s))))
      as (_ & -> & _).
    cbn. destruct ok; done.
Qed.

Lemma calibrated_kept_boot (s0 : Service.t) : not_recalibrated s0 (boot s0).
Proof.
  split.
  - apply (no_capture_in_app s0 []).
  - unfold boot. destruct s0 as [[] [] bl]; cbn; try done.
    all: unfold Modal.setIsOpen; cbn; done.
Qed.

(** X14. The running page never completes a calibration. Whatever
    happens after loading, [calibrate] is never called, the success view
    never shows and [onCalibrationComplete] never reaches [App]; the
    service is CALIBRATED only if it was so when the page loaded, with the
    baseline of then. In particular, once calibration is needed (from the
    start, or after Recalibrate Posture), it stays needed for good. *)
Theorem page_never_calibrates
    (s0 : Service.t) (es es' : list Event) :
  let s := run (boot s0) es in
  let s' := run s es' in
  Modal.calibrate_calls (ui s) = 0%nat ∧
  Modal.success_shown (ui s) = false ∧
  Modal.completions (ui s) = 0%nat ∧
  (calibrationState (Modal.svc (ui s)) = CALIBRATED →
   calibrationState s0 = CALIBRATED ∧
   baseline (Modal.svc (ui s)) = baseline s0) ∧
  (isCalibrationNeeded (Modal.svc (ui s)) = true →
   isCalibrationNeeded (Modal.svc (ui s')) = true).
Proof.
  intros s s'.
  assert (Hs : not_recalibrated s0 s)
    by apply (sys_run_invariant _ (calibrated_kept_step s0)),
         calibrated_kept_boot.
  destruct Hs as [(Ha & Hc & Hf & Hs12 & Hk & Hd) Hcal].
  repeat split; try done; try (by apply Hcal).
  - unfold Modal.success_shown.
    destruct (Z.eqb_spec (Modal.step (ui s)) 3); [lia|].
    by rewrite !andb_false_r.
  - intros Hneed.
    assert (Hs' : not_recalibrated (Modal.svc (ui s)) s').
    { apply (sys_run_invariant _ (calibrated_kept_step (Modal.svc (ui s)))).
      split; [unfold Modal.no_capture; tauto | done]. }
    destruct Hs' as [_ Hcal'].
    unfold isCalibrationNeeded in *.
    destruct (calibrationState (Modal.svc (ui s'))); [done|].
    destruct (Hcal' eq_refl) as [Hx _]. by rewrite Hx in Hneed.
Qed.

(** ** Settings in the running page *)

Lemma ctx_step (P : App.Ctx → Prop) (s : Sys) (e : Event) :
  (∀ c v, P c → P (onService c v)) →
  (∀ c u, e = User u → P c → P (App.exec (App.handle u) c)) →
  (∀ c ss, P c → P (App.exec (App.deliver ss) c)) →
  (∀ c ok, P c → P (App.exec (App.checkCalibration_resume ok) c)) →
  P (ctx s) → P (ctx (step s e)).
Proof.
  intros Hsvc Hh Hd Hr HP.
  destruct e as [e | e | ok]; cbn [step].
  - by apply Hh, Hsvc.
  - destruct e; try done; by apply Hd, Hsvc.
  - destruct (startupPending s); [|done]. by apply Hr, Hsvc.
Qed.

Lemma ctx_boot (s0 : Service.t) :
  App.settings (App.app (ctx (boot s0))) = App.settings App.initial ∧
  App.lastEnabled (App.trace (ctx (boot s0))) = None ∧
  App.lastCooldown (App.trace (ctx (boot s0))) = None.
Proof. destruct s0 as [[] [] bl]; cbn; done. Qed.

(** X15. In the running page the settings object always has the shape the
    panel gives it: the shoulder threshold, for which the panel has no
    control, is 15 for good; the slouch threshold, the confidence and the
    interval are numbers and [enableNotifications] is a boolean. As long
    as the range inputs hand over integers on their grids, the slouch
    threshold is an integer from 10 to 30 and the interval a multiple of
    30 seconds from 30 to 300, in milliseconds. *)
Theorem settings_stay_well_formed (s0 : Service.t) (es : list Event) :
  let p := App.settings (App.app (ctx (run (boot s0) es))) in
  App.shoulderAlignmentThreshold p = App.JsNumber (15 # 1) ∧
  App.panel_settings p ∧
  (Forall on_grid es → App.in_ranges p).
Proof.
  intros p.
  set (shape := λ c : App.Ctx, App.panel_settings (App.settings (App.app c))).
  set (ranges := λ c : App.Ctx, App.in_ranges (App.settings (App.app c))).
  assert (Hp : App.panel_settings p).
  { apply (sys_run_invariant (λ s, shape (ctx s))).
    - intros s e. apply (ctx_step shape); try done.
      + intros c u _. by apply handle_effects.
      + intros c ss. unfold shape.
        by destruct (deliver_effects ss c) as (_ & _ & -> & _).
      + intros c ok. unfold shape.
        by destruct (resume_effects ok c) as (_ & _ & -> & _).
    - unfold shape. destruct (ctx_boot s0) as (-> & _).
      unfold App.panel_settings; cbn; eauto 10. }
  split; [apply Hp|]. split; [done|].
  intros Hes. subst p. clear Hp.
  assert (Hb : ranges (ctx (boot s0))).
  { unfold ranges. destruct (ctx_boot s0) as (-> & _).
    unfold App.in_ranges; cbn.
    split; [exists 20; split; [lia | reflexivity]|].
    exists 60. repeat split; try lia. by exists 2. }
  revert Hb. generalize (boot s0).
  induction Hes as [|e es He _ IH]; intros s Hs; [done|].
  change (ranges (ctx (run (step s e) es))). apply IH.
  revert Hs. apply (ctx_step ranges); try done.
  - intros c u -> Hc. by apply handle_effects.
  - intros c ss. unfold ranges.
    by destruct (deliver_effects ss c) as (_ & _ & -> & _).
  - intros c ok. unfold ranges.
    by destruct (resume_effects ok c) as (_ & _ & -> & _).
Qed.

(** X16. [notificationService] hears of the two notification settings
    when, and only when, the user changes them: loading the page makes no
    [setEnabled] or [setCooldown] call, so the initial values (enabled,
    60000 ms) are never passed on; from the first change of a setting on,
    the last value passed for it is the value in the settings object. *)
Theorem notification_service_in_sync (s0 : Service.t) (es : list Event) :
  let c0 := ctx (boot s0) in
  let c := ctx (run (boot s0) es) in
  (App.lastEnabled (App.trace c0) = None ∧
   App.lastCooldown (App.trace c0) = None) ∧
  match App.lastEnabled (App.trace c) with
  | Some v => v = App.enableNotifications (App.settings (App.app c))
  | None => App.enableNotifications (App.settings (App.app c))
            = App.JsBoolean true
  end ∧
  match App.lastCooldown (App.trace c) with
  | Some v => v = App.notificationInterval (App.settings (App.app c))
  | None => App.notificationInterval (App.settings (App.app c))
            = App.JsNumber (60000 # 1)
  end.
Proof.
  intros c0 c. split; [apply ctx_boot|].
  change (App.notifications_in_sync c). subst c.
  apply (sys_run_invariant (λ s, App.notifications_in_sync (ctx s))).
  - intros s e. apply (ctx_step App.notifications_in_sync); try done.
    + intros c u _. by apply handle_effects.
    + intros c ss. unfold App.notifications_in_sync.
      by destruct (deliver_effects ss c) as (_ & _ & -> & -> & ->).
    + intros c ok. unfold App.notifications_in_sync.
      by destruct (resume_effects ok c) as (_ & _ & -> & -> & ->).
  - unfold App.notifications_in_sync.
    destruct (ctx_boot s0) as (-> & -> & ->). done.
Qed.

(** ** Dismissing the modal and entering it again *)

Lemma sys_run_app (s : Sys) (es1 es2 : list Event) :
  run s (es1 ++ es2) = run (run s es1) es2.
Proof. unfold run. by rewrite fold_left_app. Qed.

Lemma in_step_in_app (s0 : Service.t) (es : list Event) :
  in_step (run (boot s0) es).
Proof. apply (sys_run_invariant in_step in_step_step), in_step_boot. Qed.

Lemma settled_in_app (s0 : Service.t) (es : list Event) :
  Modal.settled (ui (run (boot s0) es)).
Proof.
  apply (ui_invariant_boot Modal.settled s0 settled_step settled_with_svc
           settled_mount).
Qed.

(** A modal that is not open rests in the instructions view, with no
    timer pending. *)
Lemma closed_modal_rests (s : Sys) :
  in_step s → Modal.settled (ui s) → Modal.isOpen (ui s) = false →
  Modal.step (ui s) = 1 ∧ Modal.timer (ui s) = None.
Proof.
  intros (Hm & _ & _ & H2) ((_ & _ & _ & Hs12 & _) & Ht & _) Hc.
  assert (Hs : Modal.step (ui s) = 1).
  { destruct Hs12 as [|Hs]; [done|]. rewrite (H2 Hs) in Hc. discriminate. }
  split; [done|].
  unfold Modal.ticking in Ht. rewrite Hm in Ht. apply Ht. lia.
Qed.


(** A closed modal is opened by [App] only: by a handler of [App] or by
    its startup check, never by something that happens in the modal. What
    the modal then sees is the new value of its [isOpen] prop. *)
Lemma reentry_by_app (s : Sys) (e : Event) :
  in_step s →
  Modal.isOpen (ui s) = false → Modal.isOpen (ui (step s e)) = true →
  ∃ v, ui (step s e)
       = Modal.step_event (Modal.with_svc v (ui s)) (Modal.SetIsOpen true).
Proof.
  intros Hin Hc Ho. pose proof Hin as (Hm & Hshow & _).
  assert (Happ : ∀ m p,
            Modal.isOpen (ui (byApp m {| ctx := ctx s; ui := ui s;
                                         startupPending := p |})) = true →
            ∃ v, ui (byApp m {| ctx := ctx s; ui := ui s;
                                startupPending := p |})
                 = Modal.step_event (Modal.with_svc v (ui s))
                     (Modal.SetIsOpen true)).
  { intros m p. unfold byApp, render. cbn [ui ctx startupPending].
    set (c := App.exec m _). intros Hopen.
    destruct (setIsOpen_workflow
                (App.modal_isOpen (App.render (App.app c)))
                (Modal.with_svc (App.service c) (ui s)))
      as (_ & _ & _ & _ & _ & _ & _ & _ & _ & _ & Hb).
    rewrite Hopen in Hb. cbn [Modal.mounted Modal.with_svc] in Hb.
    rewrite Hm in Hb. exists (App.service c). by rewrite <- Hb. }
  destruct e as [u | m | ok]; cbn [step] in *.
  - destruct s as [c w p]. by apply Happ.
  - exfalso.
    assert (Hmod : ∀ m, Modal.isOpen (ui (byModal m s)) = false).
    { intros m'. unfold byModal, render. cbn [ui].
      destruct (setIsOpen_workflow
                  (App.modal_isOpen (App.render (App.app
                     (App.exec (App.deliver (Modal.emitted (ui s) m'))
                        (onService (ctx s)
                           (Modal.svc (Modal.step_event (ui s) m')))))))
                  (Modal.step_event (ui s) m'))
        as (_ & _ & _ & _ & _ & _ & _ & _ & _ & _ & ->).
      destruct (event_mounted_isOpen (ui s) m') as [Hm' Ho'].
      destruct (deliver_effects (Modal.emitted (ui s) m')
                  (onService (ctx s) (Modal.svc (Modal.step_event (ui s) m'))))
        as (Hd & _).
      cbn [App.render App.modal_isOpen]. rewrite Hd.
      cbn [onService App.app]. rewrite <- Hshow, Hc, Hm', Ho', Hm.
      destruct m'; rewrite ?Hc; try done.
      all: by destruct (List.filter Modal.is_callback _). }
    destruct m; rewrite ?Hmod in Ho; congruence.
  - destruct (startupPending s); [by apply Happ | congruence].
Qed.



(** C2, as the code has it. Entering the workflow again in the running
    page. The modal that [App] opens again is in the instructions view
    with no timer pending, but nothing is reset: step, countdown and error
    message are the ones the closed modal had. The countdown cell reads 5
    only if no capture attempt has failed since the page was loaded; after
    a failed attempt it reads 0. *)
Theorem reentry_in_app (s0 : Service.t) (es : list Event) (e : Event) :
  let s := run (boot s0) es in
  let s' := step s e in
  Modal.isOpen (ui s) = false → Modal.isOpen (ui s') = true →
  (Modal.step (ui s') = 1 ∧ Modal.timer (ui s') = None) ∧
  (Modal.step (ui s') = Modal.step (ui s) ∧
   Modal.countdown (ui s') = Modal.countdown (ui s) ∧
   Modal.error (ui s') = Modal.error (ui s)) ∧
  (Modal.failed_attempts (ui s') = 0%nat → Modal.countdown (ui s') = 5) ∧
  ((0 < Modal.failed_attempts (ui s'))%nat → Modal.countdown (ui s') = 0).
Proof.
  intros s s' Hclosed Hopen.
  pose proof (in_step_in_app s0 es) as Hin. fold s in Hin.
  pose proof (settled_in_app s0 es) as Hset. fold s in Hset.
  pose proof (settled_in_app s0 (es ++ [e])) as Hset'.
  rewrite sys_run_app in Hset'. change (Modal.settled (ui s')) in Hset'.
  destruct (closed_modal_rests s Hin Hset Hclosed) as [Hs1 Ht].
  destruct (reentry_by_app s e Hin Hclosed Hopen) as [v Hui].
  destruct (setIsOpen_workflow true (Modal.with_svc v (ui s)))
    as (_ & Hs & Hc & Htm & _ & He & _).
  fold s' in Hui. rewrite <- Hui in Hs, Hc, Htm, He.
  cbn [Modal.step Modal.countdown Modal.timer Modal.error Modal.with_svc]
    in Hs, Hc, Htm, He.
  assert (Hs1' : Modal.step (ui s') = 1) by congruence.
  destruct Hset' as (_ & _ & Hi). destruct (Hi Hs1') as [H5 H0].
  repeat split; try done; congruence.
Qed.

(** The page loads with calibration needed, the user cancels, and
    [CameraFeed] asks for calibration. *)
Lemma reentry_in_app_witness :
  let s := run (boot Modal.svc0) [InModal Modal.ClickCancel] in
  let s' := step s (User App.CameraFeedNeedsCalibration) in
  Modal.isOpen (ui s) = false ∧
  Modal.step (ui s') = 1 ∧ Modal.countdown (ui s') = 5.
Proof.
  intros s s'.
  pose proof (reentry_in_app Modal.svc0 [InModal Modal.ClickCancel]
                (User App.CameraFeedNeedsCalibration) eq_refl eq_refl)
    as ((Hs & _) & _ & (H5 & _)).
  split; [reflexivity|]. split; [exact Hs|]. apply H5. reflexivity.
Defined.

(** C2 as stated fails: the page loads with calibration needed, the user
    starts a calibration, the countdown runs out and the attempt fails;
    the user cancels, opens the settings and presses Recalibrate Posture.
    The modal opens at step 1 with the countdown at 0 and the error
    message of the failed attempt. *)
Lemma reentered_after_attempt_not_reset :
  let failed := run (boot Modal.svc0)
                  [InModal Modal.ClickStart;
                   InModal Modal.TimerFires; InModal Modal.TimerFires;
                   InModal Modal.TimerFires; InModal Modal.TimerFires;
                   InModal Modal.TimerFires] in
  let closed := step failed (InModal Modal.ClickCancel) in
  let again := run closed [User App.ClickSettingsToggle;
                           User (App.ClickRecalibrate Cleared)] in
  Modal.isOpen (ui closed) = false ∧
  (Modal.isOpen (ui again), Modal.step (ui again), Modal.countdown (ui again),
   Modal.error (ui again))
    = (true, 1, 0, Some Modal.refsMissing) ∧
  ¬ (Modal.step (ui again) = 1 ∧ Modal.countdown (ui again) = 5).
Proof.
  vm_compute. repeat split. intros [_ H]. discriminate H.
Qed.

(** ** One calibration session in the running page *)



End SystemFacts.
